(** * dev-debug-helper: a shallow embedding of [src/index.ts]

    The development follows the source file top to bottom:

    - [Js]        the fragment of JavaScript the helper relies on: strings
                  with [indexOf], [lastIndexOf], [substring], [startsWith]
                  and [toLowerCase]; dynamically typed values, a heap of
                  objects, truthiness, property reads, [toString];
    - [Extract]   [getReactSourceInfo] and [getElementInfo];
    - [Format]    the two formatters of [DEFAULT_CONFIG];
    - [Session]   the module-level state, the persisted flag and the
                  handlers registered by [attachEventListeners];
    - [Spec]      the vocabulary of the statements;
    - [Samples]   a few pages to run the code on;
    - [Toast]     the text of the notification of [showCopyNotification];
    - [Dom]       how the document presents the class of a node;
    - [Lifecycle] [initDevDebugHelper], [destroyDevDebugHelper], the
                  registration of the handlers and the dispatch of events.

    The statements come after, grouped by the function they are about.

    A character of a model string stands for one code unit of the
    JavaScript string, so the strings of the model are those whose code
    units are all below 256; on them lengths, cuts and searches are
    exact.  The few literals of the source that go beyond (the hint of
    the tooltip, the pictograms of the default tooltip) stand as their
    UTF-8 bytes; they are only ever concatenated. *)

From Stdlib Require Import ZArith Ascii Lia.
From stdpp Require Import base option list strings gmap pretty.

Local Open Scope Z_scope.

(* ================================================================== *)
(** * The JavaScript fragment *)
(* ================================================================== *)

Module Js.

(** ** Strings *)

Definition newline : string := String "010"%char EmptyString.
Definition dquote : string := String "034"%char EmptyString.

(** [s.startsWith(p)] *)
Fixpoint startsWith (s p : string) {struct p} : bool :=
  match p, s with
  | EmptyString, _ => true
  | String _ _, EmptyString => false
  | String a p', String b s' => if Ascii.eqb a b then startsWith s' p' else false
  end.

(** Position of the first occurrence of [pat] in [s], if any. *)
Fixpoint find_first (pat s : string) : option nat :=
  if startsWith s pat then Some 0%nat
  else match s with
       | EmptyString => None
       | String _ s' => S <$> find_first pat s'
       end.

(** Position of the last occurrence of [pat] in [s], if any. *)
Fixpoint find_last (pat s : string) : option nat :=
  match s with
  | EmptyString => if startsWith s pat then Some 0%nat else None
  | String _ s' =>
      match find_last pat s' with
      | Some n => Some (S n)
      | None => if startsWith s pat then Some 0%nat else None
      end
  end.

Definition position (o : option nat) : Z :=
  match o with
  | Some n => Z.of_nat n
  | None => -1
  end.

(** [s.indexOf(pat)] and [s.lastIndexOf(pat)]: [-1] when [pat] is absent. *)
Definition indexOf (s pat : string) : Z := position (find_first pat s).
Definition lastIndexOf (s pat : string) : Z := position (find_last pat s).

Fixpoint drop_chars (n : nat) (s : string) : string :=
  match n, s with
  | O, _ => s
  | S _, EmptyString => EmptyString
  | S n', String _ s' => drop_chars n' s'
  end.

Fixpoint take_chars (n : nat) (s : string) : string :=
  match n, s with
  | O, _ => EmptyString
  | S _, EmptyString => EmptyString
  | S n', String a s' => String a (take_chars n' s')
  end.

(** [s.substring(start)]: a negative start counts as 0, a start past the
    end gives the empty string. *)
Definition substring_from (s : string) (start : Z) : string :=
  drop_chars (Z.to_nat start) s.

(** [s.substring(0, stop)] *)
Definition substring_to (s : string) (stop : Z) : string :=
  take_chars (Z.to_nat stop) s.

(** [s.length] *)
Definition str_length (s : string) : Z := Z.of_nat (String.length s).

(** The lower case of a code unit below 256: the letters [A]-[Z] and the
    capitals of Latin-1 (192 to 222, the multiplication sign 215 apart)
    move up by 32, every other unit is kept. *)
Definition lower_char (c : ascii) : ascii :=
  let n := nat_of_ascii c in
  if ((65 <=? n)%nat && (n <=? 90)%nat)
     || ((192 <=? n)%nat && (n <=? 222)%nat && negb (n =? 215)%nat)
  then ascii_of_nat (n + 32) else c.

(** [s.toLowerCase()] *)
Fixpoint toLowerCase (s : string) : string :=
  match s with
  | EmptyString => EmptyString
  | String c s' => String (lower_char c) (toLowerCase s')
  end.

(** ** Values and the heap *)

Definition loc := nat.
Bind Scope nat_scope with loc.

(** A value as the code can meet one behind [any]: the primitives, and a
    reference to an object.  A number is an integer that a double holds
    exactly (line numbers, pointer coordinates: below 2^53 in absolute
    value), which JavaScript prints in full, digit by digit. *)
Inductive value :=
| VUndefined
| VNull
| VBool (b : bool)
| VNumber (n : Z)
| VString (s : string)
| VObject (l : loc).

(** An object is a plain record of data properties; functions and classes
    are objects too as far as their properties are read (a component
    function is the object carrying its [name] and [displayName]).  No
    property is an accessor and none is callable; arrays and the wrapper
    objects of primitives, which bring methods of their own, are not
    among the objects of the model. *)
Definition object := gmap string value.

(** References may form cycles ([fiber.return] pointing back at a
    descendant); a location the heap does not define is an object with no
    own properties. *)
Definition heap := gmap loc object.

Definition object_at (h : heap) (l : loc) : object := default ∅ (h !! l).

(** [!!v] *)
Definition truthy (v : value) : bool :=
  match v with
  | VUndefined | VNull => false
  | VBool b => b
  | VNumber n => negb (n =? 0)
  | VString s => negb (String.eqb s EmptyString)
  | VObject _ => true
  end.

(** [typeof v === 'string'] *)
Definition is_string (v : value) : bool :=
  match v with
  | VString _ => true
  | _ => false
  end.

(** [v[name]] on a value that is neither [undefined] nor [null], for the
    names this program reads ([_debugSource], [fileName], [lineNumber],
    [type], [displayName], [name], [return]): an object answers with its
    own property, a primitive with [undefined], since the prototypes of
    strings, numbers and booleans define none of these names. *)
Definition get (h : heap) (v : value) (name : string) : value :=
  match v with
  | VObject l => default VUndefined (object_at h l !! name)
  | _ => VUndefined
  end.

(** [a || b] *)
Definition or_else (a b : value) : value := if truthy a then a else b.

(** How a statement completes: normally, or by throwing. *)
Inductive completion (A : Type) :=
| Normal (a : A)
| Throw (e : string).
Arguments Normal {A} a.
Arguments Throw {A} e.

(** [v.toString()] on a value that is neither [undefined] nor [null].  An
    object that shadows [toString] does so with a property that is not
    callable, and the call throws; otherwise [Object.prototype.toString]
    answers. *)
Definition toString (h : heap) (v : value) : completion string :=
  match v with
  | VUndefined => Throw "TypeError: Cannot read properties of undefined"
  | VNull => Throw "TypeError: Cannot read properties of null"
  | VBool b => Normal (if b then "true" else "false")
  | VNumber n => Normal (pretty n)
  | VString s => Normal s
  | VObject l =>
      match object_at h l !! "toString" with
      | Some _ => Throw "TypeError: toString is not a function"
      | None => Normal "[object Object]"
      end
  end.

(** [c] followed by [k] unless [c] throws. *)
Definition cbind {A B} (c : completion A) (k : A -> completion B) : completion B :=
  match c with
  | Normal a => k a
  | Throw e => Throw e
  end.

Definition cmap {A B} (f : A -> B) (c : completion A) : completion B :=
  cbind c (fun a => Normal (f a)).

(** [`${v}`]: the primitives print as themselves.  An object is converted
    through its [toString] and then its [valueOf]: one that shadows
    [toString] does so with a property that is not callable, and
    [valueOf], inherited or shadowed, gives no primitive, so the
    conversion throws; otherwise [Object.prototype.toString] answers, as
    it does for the plain objects that the model holds. *)
Definition template (h : heap) (v : value) : completion string :=
  match v with
  | VUndefined => Normal "undefined"
  | VNull => Normal "null"
  | VBool b => Normal (if b then "true" else "false")
  | VNumber n => Normal (pretty n)
  | VString s => Normal s
  | VObject l =>
      match object_at h l !! "toString" with
      | Some _ => Throw "TypeError: Cannot convert object to primitive value"
      | None => Normal "[object Object]"
      end
  end.

End Js.

(* ================================================================== *)
(** * Metadata extraction *)
(* ================================================================== *)

Module Extract.
Import Js.

(** [interface ElementInfo].  [componentName] holds whatever truthy value
    the walk found on [fiber.type] ([VNull] for [null]): the source assigns
    it from an [any]. *)
Record ElementInfo := {
  className : string;
  filePath : option string;
  lineNumber : option string;
  componentName : value;
  tagName : string
}.

(** The [Partial<ElementInfo>] that [getReactSourceInfo] fills in. *)
Record ReactInfo := {
  r_filePath : option string;
  r_lineNumber : option string;
  r_componentName : value
}.

(** The node handed to the extractor.  [className] and [tagName] live on
    the prototype chain; [ownProperties] are the node's own enumerable
    properties in creation order, as [Object.keys] lists them.
    [el_className] is a string on an HTML element, an object (an
    [SVGAnimatedString]) on an SVG element, [undefined] on a node that is
    not an element. *)
Record HTMLElement := {
  el_className : value;
  el_tagName : string;
  ownProperties : list (string * value)
}.

(** Truthiness of a [string | null] field. *)
Definition truthy_field (o : option string) : bool :=
  match o with
  | Some s => negb (String.eqb s EmptyString)
  | None => false
  end.

(** [o || null] on a [string | null] field. *)
Definition or_null (o : option string) : option string :=
  if truthy_field o then o else None.

(** ** The state-and-exception monad of the [try] block

    The block mutates [result] in place and may throw at any point; what
    was written before the throw stays written. *)

Definition M (A : Type) : Type := ReactInfo -> ReactInfo * completion A.

Definition ret {A} (a : A) : M A := fun r => (r, Normal a).

Definition throw {A} (e : string) : M A := fun r => (r, Throw e).

Definition bind {A B} (m : M A) (k : A -> M B) : M B :=
  fun r =>
    match m r with
    | (r', Normal a) => k a r'
    | (r', Throw e) => (r', Throw e)
    end.

Notation "'let*' x ':=' m 'in' k" := (bind m (fun x => k))
  (at level 10, x name, m at level 100, k at level 200).

Definition read : M ReactInfo := fun r => (r, Normal r).

Definition lift {A} (c : completion A) : M A := fun r => (r, c).

Definition set_filePath (p : string) : M unit :=
  fun r => ({| r_filePath := Some p;
               r_lineNumber := r_lineNumber r;
               r_componentName := r_componentName r |}, Normal tt).

Definition set_lineNumber (n : option string) : M unit :=
  fun r => ({| r_filePath := r_filePath r;
               r_lineNumber := n;
               r_componentName := r_componentName r |}, Normal tt).

Definition set_componentName (v : value) : M unit :=
  fun r => ({| r_filePath := r_filePath r;
               r_lineNumber := r_lineNumber r;
               r_componentName := v |}, Normal tt).

(** ** Lines 130-142: the path relative to the source root *)

Definition relativePath (fileName : string) : string :=
  let srcIndex := indexOf fileName "/src/" in
  if negb (srcIndex =? -1) then substring_from fileName (srcIndex + 1)
  else
    let lastSlash := lastIndexOf fileName "/" in
    if negb (lastSlash =? -1) then substring_from fileName (lastSlash + 1)
    else fileName.

(** [filePath.indexOf('/src/')] is a call: a number and a boolean have no
    such method, and neither has an object of the model. *)
Definition relativePath_of (fileName : value) : M string :=
  match fileName with
  | VString s => ret (relativePath s)
  | _ => throw "TypeError: filePath.indexOf is not a function"
  end.

(** [source.lineNumber?.toString() || null] *)
Definition lineNumber_of (h : heap) (ln : value) : M (option string) :=
  match ln with
  | VUndefined | VNull => ret None
  | _ => let* s := lift (toString h ln) in ret (or_null (Some s))
  end.

(** ** Lines 126-147: [if (fiber._debugSource) { ... }] *)
Definition readDebugSource (h : heap) (fiber : value) : M unit :=
  let source := get h fiber "_debugSource" in
  if truthy source then
    let fileName := get h source "fileName" in
    if truthy fileName then
      let* filePath := relativePath_of fileName in
      let* _ := set_filePath filePath in
      let* ln := lineNumber_of h (get h source "lineNumber") in
      set_lineNumber ln
    else ret tt
  else ret tt.

(** ** Lines 150-158: [if (fiber.type) { ... }] *)
Definition readComponentName (h : heap) (fiber : value) : M unit :=
  let type := get h fiber "type" in
  if truthy type then
    let typeName := or_else (get h type "displayName") (get h type "name") in
    let* r := read in
    if truthy typeName && negb (truthy (r_componentName r)) then
      if negb (is_string type) then set_componentName typeName else ret tt
    else ret tt
  else ret tt.

(** One pass through the loop body, up to the test of line 161. *)
Definition visit (h : heap) (fiber : value) : M unit :=
  let* _ := readDebugSource h fiber in
  readComponentName h fiber.

(** [result.filePath && result.componentName] *)
Definition found (r : ReactInfo) : bool :=
  truthy_field (r_filePath r) && truthy (r_componentName r).

(** The trace is ghost state: it records, for every pass through the loop
    body, the fiber visited and [result] as the pass left it, nearest
    fiber first. *)
Definition Trace := list (value * ReactInfo).

(** ** Lines 124-167: [while (fiber && maxDepth > 0) { ... }]

    [maxDepth] starts at 20 and only ever decreases by one, so it is a
    natural number. *)
Fixpoint walk (h : heap) (maxDepth : nat) (fiber : value) (r : ReactInfo)
    : ReactInfo * completion unit * Trace :=
  match maxDepth with
  | O => (r, Normal tt, [])
  | S maxDepth' =>
      if truthy fiber then
        match visit h fiber r with
        | (r', Throw e) => (r', Throw e, [(fiber, r')])
        | (r', Normal _) =>
            if found r' then (r', Normal tt, [(fiber, r')])
            else
              let '(r'', c, t) := walk h maxDepth' (get h fiber "return") r' in
              (r'', c, (fiber, r') :: t)
        end
      else (r, Normal tt, [])
  end.

(** [Object.keys(element).find(key => key.startsWith('__reactFiber$') ||
    key.startsWith('__reactInternalInstance$'))] *)
Definition isFiberKey (key : string) : bool :=
  startsWith key "__reactFiber$" || startsWith key "__reactInternalInstance$".

Definition findFiberKey (element : HTMLElement) : option string :=
  List.find isFiberKey (map fst (ownProperties element)).

(** [element[key]] for an own property. *)
Definition own (element : HTMLElement) (key : string) : value :=
  match List.find (fun kv => String.eqb (fst kv) key) (ownProperties element) with
  | Some kv => snd kv
  | None => VUndefined
  end.

Definition emptyInfo : ReactInfo :=
  {| r_filePath := None; r_lineNumber := None; r_componentName := VNull |}.

(** The body of the [try] block, run on the freshly created [result]. *)
Definition tryBlock (h : heap) (element : HTMLElement)
    : ReactInfo * completion unit * Trace :=
  match findFiberKey element with
  | None => (emptyInfo, Normal tt, [])
  | Some fiberKey => walk h 20 (own element fiberKey) emptyInfo
  end.

(** [try { ... } catch (e) { console.debug(...) }  return result;] *)
Definition getReactSourceInfo_traced (h : heap) (element : HTMLElement)
    : completion ReactInfo * Trace :=
  match tryBlock h element with
  | (r, Normal _, t) => (Normal r, t)
  | (r, Throw _, t) => (Normal r, t)
  end.

Definition getReactSourceInfo (h : heap) (element : HTMLElement)
    : completion ReactInfo :=
  fst (getReactSourceInfo_traced h element).

(** The fibers the walk passed through, nearest first. *)
Definition visited (h : heap) (element : HTMLElement) : Trace :=
  snd (getReactSourceInfo_traced h element).

(** [reactInfo.componentName || null] *)
Definition value_or_null (v : value) : value := if truthy v then v else VNull.

(** ** Lines 179-195.  [None] is the [null] result; a throw of
    [getReactSourceInfo] would propagate. *)
Definition getElementInfo (h : heap) (element : HTMLElement)
    : completion (option ElementInfo) :=
  match el_className element with
  | VString cls =>
      if negb (truthy (VString cls)) then Normal None
      else
        match getReactSourceInfo h element with
        | Throw e => Throw e
        | Normal reactInfo =>
            Normal (Some {| className := cls;
                            tagName := toLowerCase (el_tagName element);
                            filePath := or_null (r_filePath reactInfo);
                            lineNumber := or_null (r_lineNumber reactInfo);
                            componentName := value_or_null (r_componentName reactInfo) |})
        end
  | _ => Normal None
  end.

End Extract.

(* ================================================================== *)
(** * The formatters of [DEFAULT_CONFIG] *)
(* ================================================================== *)

Module Format.
Import Js Extract.

(** The text of a [string | null] field inside a template literal. *)
Definition field_text (o : option string) : string :=
  match o with
  | Some s => s
  | None => "null"
  end.

(** Lines 52-66.  The component name is the one field that is not a
    string by construction: printing it can throw. *)
Definition DEFAULT_formatCopyText (h : heap) (info : ElementInfo)
    : completion string :=
  let result := EmptyString in
  let result :=
    if truthy_field (filePath info) then
      let result := result +:+ "// " +:+ field_text (filePath info) in
      let result :=
        if truthy_field (lineNumber info)
        then result +:+ ":" +:+ field_text (lineNumber info)
        else result in
      result +:+ newline
    else result in
  cbind
    (if truthy (componentName info)
     then cmap (fun name => result +:+ "// Component: " +:+ name +:+ newline)
               (template h (componentName info))
     else Normal result)
    (fun result =>
       Normal (result +:+ "className=" +:+ dquote +:+ className info +:+ dquote)).

(** Lines 67-81. *)
Definition DEFAULT_formatTooltip (h : heap) (info : ElementInfo)
    : completion string :=
  let result := EmptyString in
  let result :=
    if truthy_field (filePath info) then
      let result := result +:+ "📁 " +:+ field_text (filePath info) in
      let result :=
        if truthy_field (lineNumber info)
        then result +:+ ":" +:+ field_text (lineNumber info)
        else result in
      result +:+ newline
    else result in
  cbind
    (if truthy (componentName info)
     then cmap (fun name => result +:+ "⚛️ " +:+ name +:+ newline)
               (template h (componentName info))
     else Normal result)
    (fun result =>
       Normal (result +:+ "🏷️ " +:+
                 (if 60 <? str_length (className info)
                  then substring_to (className info) 60 +:+ "..."
                  else className info))).

Record Theme := {
  primary : string;
  background : string;
  text : string;
  border : string
}.

(** [Required<DevDebugConfig>].  A formatter is a function of the info,
    which it reads on the heap of the moment; it returns a string or
    throws. *)
Record DevDebugConfig := {
  storageKey : string;
  devOnly : bool;
  allowedHosts : list string;
  formatCopyText : heap -> ElementInfo -> completion string;
  formatTooltip : heap -> ElementInfo -> completion string;
  theme : Theme
}.

Definition DEFAULT_CONFIG : DevDebugConfig := {|
  storageKey := "devDebugEnabled";
  devOnly := true;
  allowedHosts := ["localhost"; "127.0.0.1"];
  formatCopyText := DEFAULT_formatCopyText;
  formatTooltip := DEFAULT_formatTooltip;
  theme := {| primary := "#00ff88"; background := "#1a1a2e";
              text := "#00ff88"; border := "#00ff88" |}
|}.

End Format.

(* ================================================================== *)
(** * Session state and the pointer handlers *)
(* ================================================================== *)

Module Session.
Import Js Extract Format.

(** What the handlers set on the tooltip element. *)
Record Tooltip := {
  textContent : string;
  display : string;
  left : string;
  top : string
}.

(** The module-level variables, the [ctrlPressed] variable that the four
    handlers close over, and the two browser facilities written to: the
    store behind [localStorage] and the texts handed, oldest first, to
    [navigator.clipboard.writeText].  Console output is not recorded. *)
Record State := {
  isInitialized : bool;
  isActive : bool;
  config : DevDebugConfig;
  tooltip : option Tooltip;
  ctrlPressed : bool;
  localStorage : gmap string string;
  clipboard : list string
}.

Record MouseEvent := {
  target : option HTMLElement;
  clientX : Z;
  clientY : Z
}.

Definition with_tooltip (t : option Tooltip) (st : State) : State :=
  {| isInitialized := isInitialized st; isActive := isActive st;
     config := config st; tooltip := t; ctrlPressed := ctrlPressed st;
     localStorage := localStorage st; clipboard := clipboard st |}.

Definition with_isActive (b : bool) (st : State) : State :=
  {| isInitialized := isInitialized st; isActive := b;
     config := config st; tooltip := tooltip st; ctrlPressed := ctrlPressed st;
     localStorage := localStorage st; clipboard := clipboard st |}.

Definition with_localStorage (s : gmap string string) (st : State) : State :=
  {| isInitialized := isInitialized st; isActive := isActive st;
     config := config st; tooltip := tooltip st; ctrlPressed := ctrlPressed st;
     localStorage := s; clipboard := clipboard st |}.

Definition with_clipboard (c : list string) (st : State) : State :=
  {| isInitialized := isInitialized st; isActive := isActive st;
     config := config st; tooltip := tooltip st; ctrlPressed := ctrlPressed st;
     localStorage := localStorage st; clipboard := c |}.

(** Lines 200-225: the element is created once, hidden. *)
Definition createTooltip (st : State) : State * Tooltip :=
  match tooltip st with
  | Some tip => (st, tip)
  | None =>
      let tip := {| textContent := EmptyString; display := "none";
                    left := EmptyString; top := EmptyString |} in
      (with_tooltip (Some tip) st, tip)
  end.

(** Lines 230-247.  The adjustment inside [requestAnimationFrame] runs in
    a later frame and is not part of the call. *)
Definition showTooltip (e : MouseEvent) (text : string) (st : State) : State :=
  let '(st, _) := createTooltip st in
  with_tooltip
    (Some {| textContent := text;
             display := "block";
             left := pretty (clientX e + 15) +:+ "px";
             top := pretty (clientY e + 15) +:+ "px" |}) st.

(** Lines 252-256. *)
Definition hideTooltip (st : State) : State :=
  match tooltip st with
  | Some tip =>
      with_tooltip
        (Some {| textContent := textContent tip; display := "none";
                 left := left tip; top := top tip |}) st
  | None => st
  end.

(** [localStorage.getItem(key)] and [localStorage.setItem(key, v)] *)
Definition getItem (store : gmap string string) (key : string) : option string :=
  store !! key.

Definition setItem (store : gmap string string) (key v : string)
    : gmap string string :=
  <[key := v]> store.

(** [b.toString()] *)
Definition bool_toString (b : bool) : string := if b then "true" else "false".

(** Lines 387-389. *)
Definition isDebugEnabled (st : State) : bool :=
  bool_decide (getItem (localStorage st) (storageKey (config st)) = Some "true").

(** Lines 394-411. *)
Definition setDebugEnabled (enabled : bool) (st : State) : State :=
  let st :=
    with_localStorage
      (setItem (localStorage st) (storageKey (config st)) (bool_toString enabled))
      st in
  let st := with_isActive enabled st in
  if enabled then st else hideTooltip st.

(** Lines 416-420. *)
Definition toggleDebugMode (st : State) : State * bool :=
  let newState := negb (isDebugEnabled st) in
  let st := setDebugEnabled newState st in
  (st, newState).

(** ** The handlers of [attachEventListeners] *)

Definition with_ctrlPressed (b : bool) (st : State) : State :=
  {| isInitialized := isInitialized st; isActive := isActive st;
     config := config st; tooltip := tooltip st; ctrlPressed := b;
     localStorage := localStorage st; clipboard := clipboard st |}.

(** Lines 308-312; [key] is [e.key]. *)
Definition keyDownHandler (key : string) (st : State) : State :=
  if String.eqb key "Control" then with_ctrlPressed true st else st.

(** Lines 314-319. *)
Definition keyUpHandler (key : string) (st : State) : State :=
  if String.eqb key "Control" then hideTooltip (with_ctrlPressed false st) else st.

Definition hint : string := "[Ctrl+우클릭: 복사]".

(** Lines 321-341.  A throw of the formatter leaves the handler before
    anything is written. *)
Definition mouseMoveHandler (h : heap) (e : MouseEvent) (st : State)
    : completion State :=
  if negb (isActive st) || negb (ctrlPressed st) then Normal (hideTooltip st)
  else
    match target e with
    | None => Normal (hideTooltip st)
    | Some target =>
        match getElementInfo h target with
        | Throw err => Throw err
        | Normal None => Normal (hideTooltip st)
        | Normal (Some info) =>
            match formatTooltip (config st) h info with
            | Throw err => Throw err
            | Normal tooltipText =>
                Normal (showTooltip e (hint +:+ newline +:+ tooltipText) st)
            end
        end
    end.

(** What a run of the context-menu handler leaves behind: the state,
    whether [e.preventDefault()] was called, and how the handler
    completed. *)
Record Handled := {
  state_after : State;
  defaultPrevented : bool;
  completed : completion unit
}.

(** Lines 343-361.  [clipboardApi] tells whether [navigator.clipboard] is
    defined, which it is in a secure context only.  The write to the
    clipboard is requested here; its completion (the notification, or
    the logged failure) comes later. *)
Definition contextMenuHandler (h : heap) (clipboardApi : bool)
    (e : MouseEvent) (st : State) : Handled :=
  let untouched :=
    {| state_after := st; defaultPrevented := false; completed := Normal tt |} in
  if negb (isActive st) || negb (ctrlPressed st) then untouched
  else
    match target e with
    | None => untouched
    | Some target =>
        match getElementInfo h target with
        | Throw err =>
            {| state_after := st; defaultPrevented := false; completed := Throw err |}
        | Normal None => untouched
        | Normal (Some info) =>
            match formatCopyText (config st) h info with
            | Throw err =>
                {| state_after := st; defaultPrevented := true;
                   completed := Throw err |}
            | Normal copyText =>
                if clipboardApi then
                  {| state_after := with_clipboard (clipboard st ++ [copyText]) st;
                     defaultPrevented := true; completed := Normal tt |}
                else
                  {| state_after := st; defaultPrevented := true;
                     completed :=
                       Throw "TypeError: Cannot read properties of undefined" |}
            end
        end
    end.

End Session.

(* ================================================================== *)
(** * Vocabulary of the statements *)
(* ================================================================== *)

Module Spec.
Import Js Extract Format Session.

(** [pat] occurs somewhere in [s]. *)
Definition occurs (pat s : string) : Prop :=
  ∃ pre post, s = pre +:+ pat +:+ post.

(** [s] splits at its first occurrence of [pat]. *)
Definition first_split (pat s pre post : string) : Prop :=
  s = pre +:+ pat +:+ post ∧
  ∀ pre' post', s = pre' +:+ pat +:+ post' →
                (String.length pre <= String.length pre')%nat.

(** [base] is the last component of the path [s]: what follows the last
    slash, or all of [s] when it has none. *)
Definition last_component (s base : string) : Prop :=
  ¬ occurs "/" base ∧ (s = base ∨ ∃ dir, s = dir +:+ "/" +:+ base).

(** What a fiber has to offer to each of the three fields. *)
Definition supplies_filePath (h : heap) (fiber : value) (p : string) : Prop :=
  ∃ s, get h (get h fiber "_debugSource") "fileName" = VString s ∧
       p = relativePath s.

Definition supplies_lineNumber (h : heap) (fiber : value) (n : string) : Prop :=
  toString h (get h (get h fiber "_debugSource") "lineNumber") = Normal n.

Definition supplies_componentName (h : heap) (fiber : value) (v : value) : Prop :=
  is_string (get h fiber "type") = false ∧
  v = or_else (get h (get h fiber "type") "displayName")
              (get h (get h fiber "type") "name").

(** Every field of [r] that is not [null] was supplied by a fiber of [t]. *)
Definition from_trace (h : heap) (t : Trace) (r : ReactInfo) : Prop :=
  (∀ p, r_filePath r = Some p →
        ∃ f ri, (f, ri) ∈ t ∧ supplies_filePath h f p)
  ∧ (∀ n, r_lineNumber r = Some n →
          ∃ f ri, (f, ri) ∈ t ∧ supplies_lineNumber h f n)
  ∧ (r_componentName r = VNull ∨
     ∃ f ri, (f, ri) ∈ t ∧ supplies_componentName h f (r_componentName r)).

(** The value persisted under the configured key. *)
Definition stored (st : State) : option string :=
  getItem (localStorage st) (storageKey (config st)).

(** [toggle(); toggle()] *)
Definition toggle_twice (st : State) : State * bool :=
  toggleDebugMode (toggleDebugMode st).1.

(** The second call answers with the enabled state from before the first,
    and the persisted value is what it was. *)
Definition toggle_twice_restores (st : State) : Prop :=
  (toggle_twice st).2 = isDebugEnabled st ∧
  stored (toggle_twice st).1 = stored st.

End Spec.

(* ================================================================== *)
(** * Sample pages *)
(* ================================================================== *)

Module Samples.
Import Js Extract Format Session.

(** A [<div className="x y">] written at line 264 of [Home.tsx], inside
    the component [Home], which [App.tsx] uses at line 30. *)
Definition page : heap :=
  {[ 1%nat := {[ "_debugSource" := VObject 2; "type" := VString "div";
                 "return" := VObject 3 ]};
     2%nat := {[ "fileName" := VString "/home/u/proj/src/pages/Home.tsx";
                 "lineNumber" := VNumber 264 ]};
     3%nat := {[ "_debugSource" := VObject 4; "type" := VObject 5;
                 "return" := VObject 6 ]};
     4%nat := {[ "fileName" := VString "/home/u/proj/src/App.tsx";
                 "lineNumber" := VNumber 30 ]};
     5%nat := {[ "name" := VString "Home" ]};
     6%nat := {[ "type" := VObject 7; "return" := VNull ]};
     7%nat := {[ "name" := VString "App" ]} ]}.

Definition div : HTMLElement :=
  {| el_className := VString "x y";
     el_tagName := "DIV";
     ownProperties := [("__reactFiber$k3x9", VObject 1)] |}.

(** A fiber that is its own parent and has nothing to offer. *)
Definition circular : heap :=
  {[ 1%nat := {[ "type" := VString "span"; "return" := VObject 1 ]} ]}.

Definition span : HTMLElement :=
  {| el_className := VString "badge";
     el_tagName := "SPAN";
     ownProperties := [("__reactFiber$k3x9", VObject 1)] |}.

(** Debug info whose file name is a number and not a string. *)
Definition malformed : heap :=
  {[ 1%nat := {[ "_debugSource" := VObject 2; "type" := VObject 3 ]};
     2%nat := {[ "fileName" := VNumber 7 ]};
     3%nat := {[ "name" := VString "Card" ]} ]}.

(** Debug info with a good file name and a line number that shadows
    [toString]. *)
Definition unprintable : heap :=
  {[ 1%nat := {[ "_debugSource" := VObject 2; "type" := VObject 3 ]};
     2%nat := {[ "fileName" := VString "/srv/app/src/ui/Card.tsx";
                 "lineNumber" := VObject 4 ]};
     3%nat := {[ "name" := VString "Card" ]};
     4%nat := {[ "toString" := VNumber 1 ]} ]}.

(** A component whose [displayName] is an object that shadows
    [toString]. *)
Definition nameless : heap :=
  {[ 1%nat := {[ "type" := VObject 2 ]};
     2%nat := {[ "displayName" := VObject 3 ]};
     3%nat := {[ "toString" := VNull ]} ]}.

(** Nodes without a class string: an SVG element, whose [className] is an
    object, and an element with no class at all. *)
Definition svg : HTMLElement :=
  {| el_className := VObject 9; el_tagName := "svg"; ownProperties := [] |}.

Definition bare : HTMLElement :=
  {| el_className := VString EmptyString; el_tagName := "P"; ownProperties := [] |}.

Definition session (store : gmap string string) : State :=
  {| isInitialized := true;
     isActive := true;
     config := DEFAULT_CONFIG;
     tooltip := None;
     ctrlPressed := true;
     localStorage := store;
     clipboard := [] |}.

Definition pointer (el : HTMLElement) : MouseEvent :=
  {| target := Some el; clientX := 100; clientY := 40 |}.

End Samples.

(* ================================================================== *)
(** * The text of the copy notification *)
(* ================================================================== *)

Module Toast.
Import Js.

Definition newline_char : ascii := "010"%char.

(** [s.split(sep)] for a separator of one code unit: an empty string
    splits into one empty piece, and a separator at the end leaves an
    empty last piece. *)
Fixpoint split (sep : ascii) (s : string) : list string :=
  match s with
  | EmptyString => [EmptyString]
  | String c s' =>
      if Ascii.eqb c sep then EmptyString :: split sep s'
      else
        match split sep s' with
        | piece :: pieces => String c piece :: pieces
        | [] => [String c EmptyString]
        end
  end.

(** [l.join(sep)] *)
Fixpoint join (sep : string) (l : list string) : string :=
  match l with
  | [] => EmptyString
  | [piece] => piece
  | piece :: rest => piece +:+ sep +:+ join sep rest
  end.

(** [s.replace(/c/g, by)] for a pattern of one code unit. *)
Fixpoint replaceAll (c : ascii) (by_ : string) (s : string) : string :=
  match s with
  | EmptyString => EmptyString
  | String a s' =>
      if Ascii.eqb a c then by_ +:+ replaceAll c by_ s'
      else String a (replaceAll c by_ s')
  end.

(** Lines 280-283: at most three lines of the copied text. *)
Definition preview (text : string) : string :=
  let lines := split newline_char text in
  if 3 <? Z.of_nat (length lines)
  then join newline (take 3 lines) +:+ newline +:+ "..."
  else text.

(** Line 284: at most 150 code units of the preview. *)
Definition displayText (text : string) : string :=
  let preview := preview text in
  if 150 <? str_length preview
  then substring_to preview 150 +:+ "..."
  else preview.

(** Line 288: what is spliced into the notification's markup. *)
Definition displayHtml (text : string) : string :=
  replaceAll newline_char "<br>" (displayText text).

(** Number of occurrences of the code unit [c]. *)
Fixpoint count_char (c : ascii) (s : string) : nat :=
  match s with
  | EmptyString => O
  | String a s' => if Ascii.eqb a c then S (count_char c s') else count_char c s'
  end.

End Toast.

(* ================================================================== *)
(** * Initialisation, removal and the dispatch of events *)
(* ================================================================== *)

Module Lifecycle.
Import Js Extract Format Session.

(** [DevDebugConfig] as the caller passes it: a property left out is
    [None], a property that is present holds a value of its declared
    type. *)
Record UserTheme := {
  u_primary : option string;
  u_background : option string;
  u_text : option string;
  u_border : option string
}.

Record UserConfig := {
  u_storageKey : option string;
  u_devOnly : option bool;
  u_allowedHosts : option (list string);
  u_formatCopyText : option (heap -> ElementInfo -> completion string);
  u_formatTooltip : option (heap -> ElementInfo -> completion string);
  u_theme : option UserTheme
}.

(** The default argument [{}]. *)
Definition noConfig : UserConfig :=
  {| u_storageKey := None; u_devOnly := None; u_allowedHosts := None;
     u_formatCopyText := None; u_formatTooltip := None; u_theme := None |}.

(** Lines 435-438: [{ ...DEFAULT_CONFIG.theme, ...userConfig.theme }] *)
Definition mergeTheme (user : option UserTheme) : Theme :=
  let d := theme DEFAULT_CONFIG in
  match user with
  | None => d
  | Some t =>
      {| primary := default (primary d) (u_primary t);
         background := default (background d) (u_background t);
         text := default (text d) (u_text t);
         border := default (border d) (u_border t) |}
  end.

(** Lines 432-439: [{ ...DEFAULT_CONFIG, ...userConfig, theme: ... }] *)
Definition mergeConfig (userConfig : UserConfig) : DevDebugConfig :=
  {| storageKey := default (storageKey DEFAULT_CONFIG) (u_storageKey userConfig);
     devOnly := default (devOnly DEFAULT_CONFIG) (u_devOnly userConfig);
     allowedHosts := default (allowedHosts DEFAULT_CONFIG) (u_allowedHosts userConfig);
     formatCopyText := default (formatCopyText DEFAULT_CONFIG) (u_formatCopyText userConfig);
     formatTooltip := default (formatTooltip DEFAULT_CONFIG) (u_formatTooltip userConfig);
     theme := mergeTheme (u_theme userConfig) |}.

(** [hosts.includes(hostname)] *)
Definition includes (hosts : list string) (hostname : string) : bool :=
  existsb (String.eqb hostname) hosts.

Definition with_config (c : DevDebugConfig) (st : State) : State :=
  {| isInitialized := isInitialized st; isActive := isActive st;
     config := c; tooltip := tooltip st; ctrlPressed := ctrlPressed st;
     localStorage := localStorage st; clipboard := clipboard st |}.

Definition with_isInitialized (b : bool) (st : State) : State :=
  {| isInitialized := b; isActive := isActive st;
     config := config st; tooltip := tooltip st; ctrlPressed := ctrlPressed st;
     localStorage := localStorage st; clipboard := clipboard st |}.

(** The module state together with what it has put on the page.
    [handlers] tells whether the four handler variables are set;
    [registered] whether the handlers they refer to are listening on the
    document; [stale] counts sets of handlers that listen on the document
    and that no variable refers to any more; [globals] whether
    [toggleDevDebug], [enableDevDebug] and [disableDevDebug] are on
    [window].  [ctrlPressed] of the session is the variable of the
    handlers that the module variables refer to. *)
Record Page := {
  session : State;
  handlers : bool;
  registered : bool;
  stale : nat;
  globals : bool
}.

Definition with_session (st : State) (p : Page) : Page :=
  {| session := st; handlers := handlers p; registered := registered p;
     stale := stale p; globals := globals p |}.

Definition with_globals (b : bool) (p : Page) : Page :=
  {| session := session p; handlers := handlers p; registered := registered p;
     stale := stale p; globals := b |}.

(** The module as loaded, over whatever the store holds from before. *)
Definition loaded (store : gmap string string) : Page :=
  {| session := {| isInitialized := false; isActive := false;
                   config := DEFAULT_CONFIG; tooltip := None;
                   ctrlPressed := false; localStorage := store;
                   clipboard := [] |};
     handlers := false; registered := false; stale := 0%nat; globals := false |}.

(** Lines 305-367: four new handlers over a new [ctrlPressed], assigned to
    the module variables and registered.  Handlers that were registered
    before stay registered. *)
Definition attachEventListeners (p : Page) : Page :=
  {| session := with_ctrlPressed false (session p);
     handlers := true;
     registered := true;
     stale := if registered p then S (stale p) else stale p;
     globals := globals p |}.

(** Lines 372-382: the handlers the variables refer to are unregistered,
    the variables keep their values; the tooltip element is removed. *)
Definition detachEventListeners (p : Page) : Page :=
  {| session := with_tooltip None (session p);
     handlers := handlers p;
     registered := if handlers p then false else registered p;
     stale := stale p;
     globals := globals p |}.

(** Lines 425-477; [hostname] is [window.location.hostname]. *)
Definition initDevDebugHelper (hostname : string) (userConfig : UserConfig)
    (p : Page) : Page :=
  if isInitialized (session p) then p
  else
    let p := with_session (with_config (mergeConfig userConfig) (session p)) p in
    if devOnly (config (session p))
       && negb (includes (allowedHosts (config (session p))) hostname)
    then p
    else
      let p := with_session (with_isInitialized true (session p)) p in
      let p := with_session
                 (with_isActive (isDebugEnabled (session p)) (session p)) p in
      let p := attachEventListeners p in
      with_globals true p.

(** Lines 482-494. *)
Definition destroyDevDebugHelper (p : Page) : Page :=
  if negb (isInitialized (session p)) then p
  else
    let p := detachEventListeners p in
    let p := with_session (with_isInitialized false (session p)) p in
    let p := with_session (with_isActive false (session p)) p in
    with_globals false p.

(** What the document can deliver to its listeners; a pointer event comes
    with the heap of that moment, a right click also with whether
    [navigator.clipboard] is defined. *)
Inductive Event :=
| KeyDown (key : string)
| KeyUp (key : string)
| MouseMove (h : heap) (e : MouseEvent)
| ContextMenu (h : heap) (clipboardApi : bool) (e : MouseEvent).

(** The document runs the handlers that are registered; [Throw] tells
    that the handler threw, which it does before it has written
    anything.  Stale handlers are not run: no page reached from [loaded]
    has any. *)
Definition dispatch (ev : Event) (p : Page) : completion Page :=
  if registered p then
    match ev with
    | KeyDown key => Normal (with_session (keyDownHandler key (session p)) p)
    | KeyUp key => Normal (with_session (keyUpHandler key (session p)) p)
    | MouseMove h e =>
        match mouseMoveHandler h e (session p) with
        | Normal st => Normal (with_session st p)
        | Throw err => Throw err
        end
    | ContextMenu h clipboardApi e =>
        let r := contextMenuHandler h clipboardApi e (session p) in
        match completed r with
        | Normal _ => Normal (with_session (state_after r) p)
        | Throw err => Throw err
        end
    end
  else Normal p.

(** What can happen to the page: a call of the exported API, or an event.
    An exception that a handler throws is reported by the event loop and
    goes no further: the page is as it was and the next call or event
    finds it so. *)
Inductive Call :=
| Init (userConfig : UserConfig)
| Destroy
| SetEnabled (enabled : bool)
| Toggle
| Fire (ev : Event).

Definition step (hostname : string) (c : Call) (p : Page) : completion Page :=
  match c with
  | Init userConfig => Normal (initDevDebugHelper hostname userConfig p)
  | Destroy => Normal (destroyDevDebugHelper p)
  | SetEnabled enabled => Normal (with_session (setDebugEnabled enabled (session p)) p)
  | Toggle => Normal (with_session (toggleDebugMode (session p)).1 p)
  | Fire ev =>
      match dispatch ev p with
      | Normal p' => Normal p'
      | Throw _ => Normal p
      end
  end.

Fixpoint run (hostname : string) (cs : list Call) (p : Page) : completion Page :=
  match cs with
  | [] => Normal p
  | c :: cs' =>
      match step hostname c p with
      | Normal p' => run hostname cs' p'
      | Throw err => Throw err
      end
  end.

End Lifecycle.

(* ================================================================== *)
(** * Nodes of the document *)
(* ================================================================== *)

Module Dom.
Import Js Extract.









End Dom.

(* ================================================================== *)
(** * Vocabulary for the life cycle, and more samples *)
(* ================================================================== *)

Module LifecycleSpec.
Import Js Extract Format Session Lifecycle.

(** The host check of [initDevDebugHelper] lets the call through: the
    merged configuration is not restricted to development hosts, or the
    host is one of those it allows. *)
Definition host_ok (hostname : string) (userConfig : UserConfig) : bool :=
  negb (devOnly (mergeConfig userConfig)
        && negb (includes (allowedHosts (mergeConfig userConfig)) hostname)).

(** What the page and the module state have to agree on. *)
Definition consistent (p : Page) : Prop :=
  stale p = 0%nat
  ∧ registered p = isInitialized (session p)
  ∧ globals p = isInitialized (session p)
  ∧ (registered p = true → handlers p = true)
  ∧ (isInitialized (session p) = false → tooltip (session p) = None).

End LifecycleSpec.

Module MoreSamples.
Import Js Extract Format Session Lifecycle Samples.

(** A button that React has given props but no fiber. *)
Definition button : HTMLElement :=
  {| el_className := VString "btn primary";
     el_tagName := "BUTTON";
     ownProperties := [("__reactProps$k3x9", VObject 8); ("title", VString "ok")] |}.

(** A result that already carries a path and a component. *)
Definition earlier : ReactInfo :=
  {| r_filePath := Some "src/old.tsx"; r_lineNumber := Some "1";
     r_componentName := VString "Old" |}.

Definition five_lines : string :=
  "// src/App.tsx:30" +:+ newline +:+ "// Component: Home" +:+ newline +:+
  "className=x" +:+ newline +:+ "y" +:+ newline +:+ "z".

(** A session in which the tooltip is on display. *)
Definition showing : State :=
  {| isInitialized := true; isActive := true; config := DEFAULT_CONFIG;
     tooltip := Some {| textContent := "hello"; display := "block";
                        left := "10px"; top := "20px" |};
     ctrlPressed := true;
     localStorage := {[ "devDebugEnabled" := "true" ]};
     clipboard := [] |}.

(** [{ storageKey: 'dbg', theme: { primary: '#fff' } }] *)
Definition custom : UserConfig :=
  {| u_storageKey := Some "dbg"; u_devOnly := None; u_allowedHosts := None;
     u_formatCopyText := None; u_formatTooltip := None;
     u_theme := Some {| u_primary := Some "#fff"; u_background := None;
                        u_text := None; u_border := None |} |}.

End MoreSamples.

(* ================================================================== *)
(** * Facts about the string operations *)
(* ================================================================== *)

Section StringFacts.
Import Js Spec.

Lemma str_app_cons a s t : String a s +:+ t = String a (s +:+ t).
Proof. reflexivity. Qed.

Lemma str_app_assoc s t u : (s +:+ t) +:+ u = s +:+ t +:+ u.
Proof.
  induction s as [|a s IH]; [reflexivity|].
  rewrite !str_app_cons. now rewrite IH.
Qed.

Lemma str_length_app s t :
  String.length (s +:+ t) = (String.length s + String.length t)%nat.
Proof.
  induction s as [|a s IH]; [reflexivity|].
  rewrite str_app_cons. simpl. now rewrite IH.
Qed.

Lemma startsWith_spec s p : startsWith s p = true ↔ ∃ post, s = p +:+ post.
Proof.
  revert s. induction p as [|a p IH]; intros s.
  - split; [exists s|]; reflexivity.
  - destruct s as [|b s]; simpl.
    + split; [discriminate|]. intros [post H]. rewrite str_app_cons in H. discriminate.
    + destruct (Ascii.eqb_spec a b) as [->|Hne].
      * rewrite IH. split; intros [post H]; exists post.
        -- rewrite str_app_cons. now rewrite H.
        -- rewrite str_app_cons in H. now injection H.
      * split; [discriminate|]. intros [post H]. rewrite str_app_cons in H.
        injection H as Hb _. congruence.
Qed.

Lemma startsWith_false s p post : startsWith s p = false → s ≠ p +:+ post.
Proof.
  intros Hf Heq. assert (startsWith s p = true) by (apply startsWith_spec; eauto).
  congruence.
Qed.

Lemma drop_chars_app pre t : drop_chars (String.length pre) (pre +:+ t) = t.
Proof. induction pre as [|a pre IH]; [now destruct t|]. rewrite str_app_cons. exact IH. Qed.

Lemma find_first_Some pat s n :
  find_first pat s = Some n →
  ∃ pre post, s = pre +:+ pat +:+ post ∧ String.length pre = n.
Proof.
  revert n. induction s as [|a s IH]; intros n; simpl.
  - destruct (startsWith EmptyString pat) eqn:E; [|discriminate].
    intros [= <-]. apply startsWith_spec in E as [post E].
    now exists EmptyString, post.
  - destruct (startsWith (String a s) pat) eqn:E.
    + intros [= <-]. apply startsWith_spec in E as [post E].
      now exists EmptyString, post.
    + destruct (find_first pat s) as [m|] eqn:F; simpl; [|discriminate].
      intros [= <-]. destruct (IH m eq_refl) as (pre & post & -> & Hl).
      exists (String a pre), post. split; [reflexivity|]. simpl. now rewrite Hl.
Qed.

Lemma find_first_min pat s n pre post :
  find_first pat s = Some n → s = pre +:+ pat +:+ post →
  (n <= String.length pre)%nat.
Proof.
  revert n pre. induction s as [|a s IH]; intros n pre; simpl.
  - destruct (startsWith EmptyString pat); [|discriminate].
    intros [= <-] _. lia.
  - destruct (startsWith (String a s) pat) eqn:E.
    + intros [= <-] _. lia.
    + destruct (find_first pat s) as [m|] eqn:F; simpl; [|discriminate].
      intros [= <-] Hs. destruct pre as [|b pre].
      * exfalso. now apply (startsWith_false _ _ post) in E.
      * rewrite str_app_cons in Hs. injection Hs as _ Hs.
        simpl. apply le_n_S. now apply IH.
Qed.

Lemma find_first_None pat s : find_first pat s = None → ¬ occurs pat s.
Proof.
  induction s as [|a s IH]; simpl.
  - destruct (startsWith EmptyString pat) eqn:E; [discriminate|].
    intros _ (pre & post & Hs). destruct pre as [|b pre]; [|discriminate].
    now apply (startsWith_false _ _ post) in E.
  - destruct (startsWith (String a s) pat) eqn:E; [discriminate|].
    destruct (find_first pat s) as [m|] eqn:F; simpl; [discriminate|].
    intros _ (pre & post & Hs). destruct pre as [|b pre].
    + now apply (startsWith_false _ _ post) in E.
    + rewrite str_app_cons in Hs. injection Hs as _ Hs.
      apply IH; [reflexivity|]. now exists pre, post.
Qed.

Lemma find_last_None pat s : find_last pat s = None → ¬ occurs pat s.
Proof.
  induction s as [|a s IH]; simpl.
  - destruct (startsWith EmptyString pat) eqn:E; [discriminate|].
    intros _ (pre & post & Hs). destruct pre as [|b pre]; [|discriminate].
    now apply (startsWith_false _ _ post) in E.
  - destruct (find_last pat s) as [m|] eqn:F; [discriminate|].
    destruct (startsWith (String a s) pat) eqn:E; [discriminate|].
    intros _ (pre & post & Hs). destruct pre as [|b pre].
    + now apply (startsWith_false _ _ post) in E.
    + rewrite str_app_cons in Hs. injection Hs as _ Hs.
      apply IH; [reflexivity|]. now exists pre, post.
Qed.

Lemma find_last_Some pat s n :
  find_last pat s = Some n →
  ∃ pre post, s = pre +:+ pat +:+ post ∧ String.length pre = n.
Proof.
  revert n. induction s as [|a s IH]; intros n; simpl.
  - destruct (startsWith EmptyString pat) eqn:E; [|discriminate].
    intros [= <-]. apply startsWith_spec in E as [post E].
    now exists EmptyString, post.
  - destruct (find_last pat s) as [m|] eqn:F.
    + intros [= <-]. destruct (IH m eq_refl) as (pre & post & -> & Hl).
      exists (String a pre), post. split; [reflexivity|]. simpl. now rewrite Hl.
    + destruct (startsWith (String a s) pat) eqn:E; [|discriminate].
      intros [= <-]. apply startsWith_spec in E as [post E].
      now exists EmptyString, post.
Qed.

Lemma find_last_max pat s n pre post :
  find_last pat s = Some n → s = pre +:+ pat +:+ post →
  (String.length pre <= n)%nat.
Proof.
  revert n pre. induction s as [|a s IH]; intros n pre; simpl.
  - intros _ Hs. destruct pre as [|b pre]; [simpl; lia|discriminate].
  - destruct (find_last pat s) as [m|] eqn:F.
    + intros [= <-] Hs. destruct pre as [|b pre]; [simpl; lia|].
      rewrite str_app_cons in Hs. injection Hs as _ Hs.
      simpl. apply le_n_S. now apply IH.
    + destruct (startsWith (String a s) pat); [|discriminate].
      intros [= <-] Hs. destruct pre as [|b pre]; [simpl; lia|].
      rewrite str_app_cons in Hs. injection Hs as _ Hs.
      exfalso. apply (find_last_None _ _ F). now exists pre, post.
Qed.

End StringFacts.

(* ================================================================== *)
(** * The path relative to the source root *)
(* ================================================================== *)

Section PathFacts.
Import Js Extract Spec.

Lemma drop_chars_app_S pre a t :
  drop_chars (S (String.length pre)) (pre +:+ String a t) = t.
Proof.
  induction pre as [|b pre IH]; [now destruct t|].
  rewrite str_app_cons. exact IH.
Qed.

Lemma relativePath_src f n :
  find_first "/src/" f = Some n → relativePath f = drop_chars (S n) f.
Proof.
  intros F. unfold relativePath, indexOf. rewrite F. simpl position.
  destruct (Z.eqb_spec (Z.of_nat n) (-1)) as [E|E]; [lia|]. cbn [negb].
  unfold substring_from. f_equal. lia.
Qed.

Lemma relativePath_slash f n :
  find_first "/src/" f = None → find_last "/" f = Some n →
  relativePath f = drop_chars (S n) f.
Proof.
  intros F L. unfold relativePath, indexOf, lastIndexOf. rewrite F, L.
  cbn [position Z.eqb negb].
  destruct (Z.eqb_spec (Z.of_nat n) (-1)) as [E|E]; [lia|]. cbn [negb].
  unfold substring_from. f_equal. lia.
Qed.

Lemma relativePath_bare f :
  find_first "/src/" f = None → find_last "/" f = None → relativePath f = f.
Proof.
  intros F L. unfold relativePath, indexOf, lastIndexOf. now rewrite F, L.
Qed.

(** C3.  A file name in which [/src/] occurs is cut at the first such
    occurrence and the result starts with [src/], followed by everything
    that came after it; a file name in which [/src/] does not occur is
    reduced to its last component, the text after its last slash. *)
Theorem relativePath_spec (fileName : string) :
  (occurs "/src/" fileName →
   ∃ pre post, first_split "/src/" fileName pre post ∧
               relativePath fileName = "src/" +:+ post)
  ∧ (¬ occurs "/src/" fileName →
     last_component fileName (relativePath fileName)).
Proof.
  split.
  - intros Hocc. destruct (find_first "/src/" fileName) as [n|] eqn:F.
    + destruct (find_first_Some _ _ _ F) as (pre & post & Hs & Hl).
      exists pre, post. split.
      * split; [exact Hs|]. intros pre' post' Hs'. rewrite Hl.
        eapply find_first_min; eauto.
      * rewrite (relativePath_src _ _ F). rewrite Hs at 1. rewrite <- Hl.
        apply (drop_chars_app_S pre "/"%char ("src/" +:+ post)).
    + now apply find_first_None in F.
  - intros Hno. destruct (find_first "/src/" fileName) as [n|] eqn:F.
    { exfalso. apply Hno. destruct (find_first_Some _ _ _ F) as (pre & post & Hs & _).
      now exists pre, post. }
    destruct (find_last "/" fileName) as [n|] eqn:L.
    + destruct (find_last_Some _ _ _ L) as (pre & post & Hs & Hl).
      assert (Hr : relativePath fileName = post).
      { rewrite (relativePath_slash _ _ F L). rewrite Hs at 1. rewrite <- Hl.
        apply (drop_chars_app_S pre "/"%char post). }
      rewrite Hr. split.
      * intros (a & b & Hp).
        assert (Hs' : fileName = (pre +:+ "/" +:+ a) +:+ "/" +:+ b).
        { rewrite Hs, Hp. now rewrite !str_app_assoc. }
        pose proof (find_last_max _ _ _ _ _ L Hs') as Hle.
        rewrite !str_length_app in Hle. simpl in Hle. lia.
      * right. now exists pre.
    + rewrite (relativePath_bare _ F L). split; [|now left].
      now apply find_last_None.
Qed.

Lemma relativePath_spec_witness :
  (∃ pre post, first_split "/src/" "/home/u/proj/src/pages/Home.tsx" pre post ∧
               relativePath "/home/u/proj/src/pages/Home.tsx" = "src/" +:+ post)
  ∧ last_component "lib/util/format.ts" (relativePath "lib/util/format.ts").
Proof.
  split.
  - apply (proj1 (relativePath_spec "/home/u/proj/src/pages/Home.tsx")).
    exists "/home/u/proj", "pages/Home.tsx". reflexivity.
  - apply (proj2 (relativePath_spec "lib/util/format.ts")).
    apply find_first_None. reflexivity.
Defined.

End PathFacts.

(* ================================================================== *)
(** * The walk up the fiber chain *)
(* ================================================================== *)

Section WalkFacts.
Import Js Extract Spec.

Lemma getReactSourceInfo_tryBlock h el :
  getReactSourceInfo h el = Normal (tryBlock h el).1.1.
Proof.
  unfold getReactSourceInfo, getReactSourceInfo_traced.
  destruct (tryBlock h el) as [[r [u|e]] t]; reflexivity.
Qed.

Lemma visited_tryBlock h el : visited h el = (tryBlock h el).2.
Proof.
  unfold visited, getReactSourceInfo_traced.
  destruct (tryBlock h el) as [[r [u|e]] t]; reflexivity.
Qed.

(** Unfolding of one pass of the loop. *)
Lemma walk_S h n fiber r :
  walk h (S n) fiber r =
  if truthy fiber then
    match visit h fiber r with
    | (r', Throw e) => (r', Throw e, [(fiber, r')])
    | (r', Normal _) =>
        if found r' then (r', Normal tt, [(fiber, r')])
        else
          let '(r'', c, t) := walk h n (get h fiber "return") r' in
          (r'', c, (fiber, r') :: t)
    end
  else (r, Normal tt, []).
Proof. reflexivity. Qed.

Lemma walk_length h n fiber r : (length (walk h n fiber r).2 <= n)%nat.
Proof.
  revert fiber r. induction n as [|n IH]; intros fiber r; [simpl; lia|].
  rewrite walk_S. destruct (truthy fiber); [|simpl; lia].
  destruct (visit h fiber r) as [r' [u|e]]; [|simpl; lia].
  destruct (found r'); [simpl; lia|].
  specialize (IH (get h fiber "return") r').
  destruct (walk h n (get h fiber "return") r') as [[r'' c] t].
  simpl in *. lia.
Qed.

Lemma walk_found_last h n fiber r i f ri :
  (walk h n fiber r).2 !! i = Some (f, ri) → found ri = true →
  S i = length (walk h n fiber r).2.
Proof.
  revert fiber r i. induction n as [|n IH]; intros fiber r i; [discriminate|].
  rewrite walk_S. destruct (truthy fiber); [|discriminate].
  destruct (visit h fiber r) as [r' [u|e]].
  - destruct (found r') eqn:Hf.
    + destruct i as [|i]; [reflexivity|discriminate].
    + specialize (IH (get h fiber "return") r').
      destruct (walk h n (get h fiber "return") r') as [[r'' c] t].
      simpl in *. destruct i as [|i]; simpl.
      * intros [= <- <-] Hri. congruence.
      * intros Hi Hri. f_equal. now apply IH.
  - destruct i as [|i]; [reflexivity|discriminate].
Qed.

Lemma walk_head h n fiber r f ri :
  (walk h n fiber r).2 !! 0%nat = Some (f, ri) → f = fiber.
Proof.
  destruct n as [|n]; [discriminate|].
  rewrite walk_S. destruct (truthy fiber); [|discriminate].
  destruct (visit h fiber r) as [r' [u|e]].
  - destruct (found r'); [now intros [= <- _]|].
    destruct (walk h n (get h fiber "return") r') as [[r'' c] t].
    now intros [= <- _].
  - now intros [= <- _].
Qed.

Lemma walk_chain h n fiber r i f ri f' ri' :
  (walk h n fiber r).2 !! i = Some (f, ri) →
  (walk h n fiber r).2 !! S i = Some (f', ri') →
  f' = get h f "return".
Proof.
  revert fiber r i. induction n as [|n IH]; intros fiber r i; [discriminate|].
  rewrite walk_S. destruct (truthy fiber); [|discriminate].
  destruct (visit h fiber r) as [r' [u|e]].
  - destruct (found r'); [destruct i; discriminate|].
    pose proof (walk_head h n (get h fiber "return") r' f' ri') as Hhead.
    specialize (IH (get h fiber "return") r').
    destruct (walk h n (get h fiber "return") r') as [[r'' c] t].
    simpl in *. destruct i as [|i]; simpl.
    + intros [= <- _] H1. now apply Hhead.
    + intros H0 H1. now apply (IH i).
  - destruct i; discriminate.
Qed.

(** Every visited fiber is truthy: the loop never enters its body on a
    missing parent. *)
Lemma walk_truthy h n fiber r i f ri :
  (walk h n fiber r).2 !! i = Some (f, ri) → truthy f = true.
Proof.
  revert fiber r i. induction n as [|n IH]; intros fiber r i; [discriminate|].
  rewrite walk_S. destruct (truthy fiber) eqn:Ht; [|discriminate].
  destruct (visit h fiber r) as [r' [u|e]].
  - destruct (found r').
    + destruct i; [|discriminate]. now intros [= <- _].
    + specialize (IH (get h fiber "return") r').
      destruct (walk h n (get h fiber "return") r') as [[r'' c] t].
      simpl in *. destruct i as [|i]; simpl.
      * now intros [= <- _].
      * apply IH.
  - destruct i; [|discriminate]. now intros [= <- _].
Qed.

(** C8.  Whatever the heap, so also when the parent links run in a circle
    or never end, the walk passes through the loop body at most 20
    times, each time on the parent of the fiber before; and a pass that
    leaves both the file path and the component name found is the last
    one. *)
Theorem walk_bounded_and_stops_early h el :
  (length (visited h el) <= 20)%nat
  ∧ (∀ i f ri f' ri',
       visited h el !! i = Some (f, ri) →
       visited h el !! S i = Some (f', ri') →
       f' = get h f "return")
  ∧ (∀ i f ri,
       visited h el !! i = Some (f, ri) → found ri = true →
       S i = length (visited h el)).
Proof.
  rewrite visited_tryBlock. unfold tryBlock.
  destruct (findFiberKey el) as [key|].
  - split; [apply walk_length|]. split.
    + intros i f ri f' ri'. apply walk_chain.
    + intros i f ri. apply walk_found_last.
  - split; [simpl; lia|]. split; intros; discriminate.
Qed.

End WalkFacts.

(* ================================================================== *)
(** * Where the fields of the result come from *)
(* ================================================================== *)

Section StepFacts.
Import Js Extract Spec.

Lemma readComponentName_fields h fiber r r' c :
  readComponentName h fiber r = (r', c) →
  c = Normal tt ∧ r_filePath r' = r_filePath r ∧ r_lineNumber r' = r_lineNumber r
  ∧ (r_componentName r' = r_componentName r ∨
     (truthy (r_componentName r) = false ∧ truthy (r_componentName r') = true ∧
      supplies_componentName h fiber (r_componentName r'))).
Proof.
  unfold readComponentName, bind, read, ret, set_componentName.
  destruct (truthy (get h fiber "type")); [|intros [= <- <-]; auto].
  destruct (truthy _ && negb _) eqn:E; [|intros [= <- <-]; auto].
  destruct (negb (is_string _)) eqn:S; intros [= <- <-]; simpl; auto.
  apply andb_true_iff in E as [E1 E2]. apply negb_true_iff in E2, S.
  repeat split; auto. right. repeat split; auto.
Qed.

Lemma lineNumber_of_fields h ln r r' c :
  lineNumber_of h ln r = (r', c) →
  r' = r ∧ (c = Normal None ∨ (∃ n, c = Normal (Some n) ∧ toString h ln = Normal n)
            ∨ ∃ e, c = Throw e).
Proof.
  unfold lineNumber_of, bind, lift, ret.
  destruct ln as [| |b|k|s|l]; try (intros [= <- <-]; auto; fail);
    (destruct (toString h _) as [str|e] eqn:T; intros [= <- <-]; split; auto;
     [|right; right; eauto]).
  all: unfold or_null; destruct (truthy_field (Some str)); eauto.
Qed.

Lemma readDebugSource_fields h fiber r r' c :
  readDebugSource h fiber r = (r', c) →
  r_componentName r' = r_componentName r
  ∧ ((r_filePath r' = r_filePath r ∧ r_lineNumber r' = r_lineNumber r)
     ∨ (∃ p, r_filePath r' = Some p ∧ supplies_filePath h fiber p)
       ∧ (r_lineNumber r' = r_lineNumber r ∨ r_lineNumber r' = None ∨
          ∃ n, r_lineNumber r' = Some n ∧ supplies_lineNumber h fiber n)).
Proof.
  unfold readDebugSource.
  destruct (truthy (get h fiber "_debugSource")); [|intros [= <- <-]; auto].
  destruct (truthy (get h _ "fileName")); [|intros [= <- <-]; auto].
  unfold bind at 1.
  destruct (get h (get h fiber "_debugSource") "fileName") as [| |b|n|s|l] eqn:Hfn;
    simpl relativePath_of; try (intros [= <- <-]; auto; fail).
  unfold ret at 1. unfold bind at 1. unfold set_filePath at 1. unfold bind at 1.
  destruct (lineNumber_of h _ _) as [r1 c1] eqn:Hln.
  apply lineNumber_of_fields in Hln as [-> Hc].
  assert (Hp : supplies_filePath h fiber (relativePath s)) by (exists s; auto).
  destruct Hc as [->|[(n & -> & Hn)|(e & ->)]]; intros [= <- <-]; simpl;
    (split; [reflexivity|right; split; [eauto|]]); auto.
  right. right. exists n. split; auto.
Qed.

(** A fiber whose debug info names a file writes that file's relative
    path, whatever was there before and whatever becomes of the line
    number. *)
Lemma readDebugSource_filePath h fiber r s :
  get h (get h fiber "_debugSource") "fileName" = VString s → s ≠ EmptyString →
  r_filePath (readDebugSource h fiber r).1 = Some (relativePath s).
Proof.
  intros Hfn Hs.
  assert (Ht : truthy (VString s) = true).
  { simpl. now destruct (String.eqb_spec s EmptyString). }
  unfold readDebugSource.
  destruct (get h fiber "_debugSource") as [| |b|n|s0|l] eqn:Hsrc;
    try discriminate.
  rewrite Hfn, Ht. cbn [truthy].
  unfold relativePath_of, bind, ret, set_filePath.
  destruct (lineNumber_of h _ _) as [r1 c1] eqn:Hln.
  apply lineNumber_of_fields in Hln as [-> _].
  now destruct c1.
Qed.

Lemma visit_fields h fiber r r' c :
  visit h fiber r = (r', c) →
  (r_filePath r' = r_filePath r ∨
   ∃ p, r_filePath r' = Some p ∧ supplies_filePath h fiber p)
  ∧ (r_lineNumber r' = r_lineNumber r ∨ r_lineNumber r' = None ∨
     ∃ n, r_lineNumber r' = Some n ∧ supplies_lineNumber h fiber n)
  ∧ (r_componentName r' = r_componentName r ∨
     supplies_componentName h fiber (r_componentName r')).
Proof.
  unfold visit, bind.
  destruct (readDebugSource h fiber r) as [r1 c1] eqn:D.
  apply readDebugSource_fields in D as (Dc & D).
  assert (Hfl :
    (r_filePath r1 = r_filePath r ∨
     ∃ p, r_filePath r1 = Some p ∧ supplies_filePath h fiber p)
    ∧ (r_lineNumber r1 = r_lineNumber r ∨ r_lineNumber r1 = None ∨
       ∃ n, r_lineNumber r1 = Some n ∧ supplies_lineNumber h fiber n)).
  { destruct D as [[-> ->]|[Hp Hn]]; auto. }
  destruct Hfl as [Hf Hl]. destruct c1 as [u|e].
  - destruct (readComponentName h fiber r1) as [r2 c2] eqn:C.
    apply readComponentName_fields in C as (_ & Cf & Cl & Cc).
    intros [= <- <-]. rewrite Cf, Cl. repeat split; auto.
    destruct Cc as [->|(_ & _ & Hs)]; auto.
  - intros [= <- <-]. repeat split; auto.
Qed.

(** The component name is guarded by [!result.componentName]: once found
    it is kept to the end of the walk.  The file path has no such guard. *)
Lemma visit_componentName_kept h fiber r :
  truthy (r_componentName r) = true →
  r_componentName (visit h fiber r).1 = r_componentName r.
Proof.
  intros Ht. unfold visit, bind.
  destruct (readDebugSource h fiber r) as [r1 c1] eqn:D.
  apply readDebugSource_fields in D as (Dc & _).
  destruct c1 as [u|e]; [|exact Dc].
  destruct (readComponentName h fiber r1) as [r2 c2] eqn:C.
  apply readComponentName_fields in C as (_ & _ & _ & [Cc|(Hf & _)]).
  - simpl. congruence.
  - rewrite Dc in Hf. congruence.
Qed.

Lemma walk_componentName_kept h n fiber r :
  truthy (r_componentName r) = true →
  r_componentName (walk h n fiber r).1.1 = r_componentName r.
Proof.
  revert fiber r. induction n as [|n IH]; intros fiber r Ht; [reflexivity|].
  rewrite walk_S. destruct (truthy fiber); [|reflexivity].
  pose proof (visit_componentName_kept h fiber r Ht) as Hv.
  destruct (visit h fiber r) as [r' [u|e]]; simpl in Hv; [|exact Hv].
  destruct (found r'); [exact Hv|].
  assert (Ht' : truthy (r_componentName r') = true) by congruence.
  specialize (IH (get h fiber "return") r' Ht').
  destruct (walk h n (get h fiber "return") r') as [[r'' c] t].
  simpl in *. congruence.
Qed.

Lemma from_trace_app h t t' r : from_trace h t r → from_trace h (t ++ t') r.
Proof.
  intros (Hf & Hl & Hc). repeat split.
  - intros p Hp. destruct (Hf p Hp) as (f & ri & Hin & Hs).
    exists f, ri. split; [apply elem_of_app; auto|auto].
  - intros n Hn. destruct (Hl n Hn) as (f & ri & Hin & Hs).
    exists f, ri. split; [apply elem_of_app; auto|auto].
  - destruct Hc as [Hc|(f & ri & Hin & Hs)]; [now left|right].
    exists f, ri. split; [apply elem_of_app; auto|auto].
Qed.

Lemma from_trace_visit h t fiber r r' c :
  from_trace h t r → visit h fiber r = (r', c) →
  from_trace h (t ++ [(fiber, r')]) r'.
Proof.
  intros Ht Hv. apply visit_fields in Hv as (Vf & Vl & Vc).
  apply (from_trace_app _ _ [(fiber, r')]) in Ht. destruct Ht as (Hf & Hl & Hc).
  assert (Hin : (fiber, r') ∈ t ++ [(fiber, r')]).
  { apply elem_of_app. right. apply list_elem_of_singleton. reflexivity. }
  repeat split.
  - intros p Hp. destruct Vf as [Vf|(q & Hq & Hs)].
    + apply Hf. congruence.
    + exists fiber, r'. split; [exact Hin|]. congruence.
  - intros n Hn. destruct Vl as [Vl|[Vl|(m & Hm & Hs)]].
    + apply Hl. congruence.
    + congruence.
    + exists fiber, r'. split; [exact Hin|]. congruence.
  - destruct Vc as [Vc|Vc].
    + rewrite Vc. exact Hc.
    + right. now exists fiber, r'.
Qed.

Lemma from_trace_walk h n fiber r t :
  from_trace h t r →
  from_trace h (t ++ (walk h n fiber r).2) (walk h n fiber r).1.1.
Proof.
  revert fiber r t. induction n as [|n IH]; intros fiber r t Ht.
  { simpl. now rewrite app_nil_r. }
  rewrite walk_S. destruct (truthy fiber); [|simpl; now rewrite app_nil_r].
  destruct (visit h fiber r) as [r' c] eqn:Hv.
  pose proof (from_trace_visit _ _ _ _ _ _ Ht Hv) as Ht'.
  destruct c as [u|e]; [|exact Ht'].
  destruct (found r'); [exact Ht'|].
  specialize (IH (get h fiber "return") r' _ Ht').
  destruct (walk h n (get h fiber "return") r') as [[r'' c] t'].
  simpl in *. now rewrite <- List.app_assoc in IH.
Qed.

Lemma from_trace_empty h : from_trace h [] emptyInfo.
Proof. repeat split; try discriminate. now left. Qed.

(** C7.  [getReactSourceInfo] returns on every heap and every element and
    never throws: a throw inside the [try] block is caught, and what is
    returned is [result] as the block left it.  In that result a field is
    [null] unless one of the fibers passed through supplied it. *)
Theorem getReactSourceInfo_never_throws h el :
  ∃ r, getReactSourceInfo h el = Normal r
       ∧ r = (tryBlock h el).1.1
       ∧ from_trace h (visited h el) r.
Proof.
  exists (tryBlock h el).1.1. split; [apply getReactSourceInfo_tryBlock|].
  split; [reflexivity|]. rewrite visited_tryBlock. unfold tryBlock.
  destruct (findFiberKey el) as [key|]; [|apply from_trace_empty].
  apply (from_trace_walk h 20 (own el key) emptyInfo []), from_trace_empty.
Qed.

End StepFacts.

(* ================================================================== *)
(** * [getElementInfo] and [getReactSourceInfo] on a node *)
(* ================================================================== *)

Section ElementFacts.
Import Js Extract Spec Samples.

Lemma getElementInfo_total h el : ∃ r, getElementInfo h el = Normal r.
Proof.
  unfold getElementInfo. destruct (el_className el); eauto.
  destruct (negb _); eauto.
  rewrite getReactSourceInfo_tryBlock. eauto.
Qed.

Example toLowerCase_DIV : toLowerCase "DIV" = "div".
Proof. reflexivity. Qed.

Example toLowerCase_custom : toLowerCase "MY-Widget_2" = "my-widget_2".
Proof. reflexivity. Qed.

(** In terms of the [className] property: [getElementInfo] always
    returns; it returns [null] exactly when the node's [className] is not
    a non-empty string; and an info it returns carries that string as
    its [className], which is therefore never empty, and the node's tag
    name in lower case as its [tagName]. *)
Theorem getElementInfo_spec h el :
  ∃ r, getElementInfo h el = Normal r
       ∧ (r = None ↔ ¬ ∃ s, el_className el = VString s ∧ s ≠ EmptyString)
       ∧ (∀ info, r = Some info →
            el_className el = VString (className info)
            ∧ className info ≠ EmptyString
            ∧ tagName info = toLowerCase (el_tagName el)).
Proof.
  unfold getElementInfo.
  destruct (el_className el) as [| |b|n|s|l] eqn:Hc;
    try (exists None; split; [reflexivity|]; split;
         [split; [intros _ (s & Hs & _); discriminate|reflexivity]
         |intros info; discriminate]).
  simpl truthy. destruct (String.eqb_spec s EmptyString) as [->|Hne]; simpl negb.
  - exists None. split; [reflexivity|]. split; [|intros info; discriminate].
    split; [|reflexivity]. intros _ (s & [= <-] & Hs). now apply Hs.
  - rewrite getReactSourceInfo_tryBlock. eexists. split; [reflexivity|]. split.
    + split; [discriminate|]. intros Hno. exfalso. apply Hno. now exists s.
    + intros info [= <-]. simpl. auto.
Qed.

Lemma getElementInfo_spec_witness :
  el_className div = VString "x y" ∧ "x y" ≠ EmptyString
  ∧ "div" = toLowerCase (el_tagName div).
Proof.
  destruct (getElementInfo_spec page div) as (r & Hr & _ & Hinfo).
  vm_compute in Hr. injection Hr as <-.
  exact (Hinfo _ eq_refl).
Defined.




Example toLowerCase_latin1 :
  toLowerCase (String (ascii_of_nat 201) "COLE") = String (ascii_of_nat 233) "cole".
Proof. reflexivity. Qed.

(** C2, at the page of the README.  The fiber nearest to the node is the
    first with debug info, and what it supplies is [src/pages/Home.tsx],
    line 264; the result nevertheless carries the path and line of its
    parent, the component [Home] as used in [src/App.tsx] at line 30: each
    fiber with debug info overwrites what the one before it wrote. *)
Theorem filePath_overwritten_by_parent :
  own div "__reactFiber$k3x9" = VObject 1
  ∧ supplies_filePath page (VObject 1) "src/pages/Home.tsx"
  ∧ supplies_lineNumber page (VObject 1) "264"
  ∧ get page (VObject 1) "return" = VObject 3
  ∧ getReactSourceInfo page div =
      Normal {| r_filePath := Some "src/App.tsx";
                r_lineNumber := Some "30";
                r_componentName := VString "Home" |}.
Proof.
  split; [reflexivity|]. split.
  { exists "/home/u/proj/src/pages/Home.tsx". split; reflexivity. }
  split; [reflexivity|]. split; reflexivity.
Qed.

(** The [try] block does throw on malformed debug info, and the throw is
    caught. *)
Example tryBlock_throws :
  (tryBlock malformed div).1.2 = Throw "TypeError: filePath.indexOf is not a function"
  ∧ getReactSourceInfo malformed div = Normal emptyInfo.
Proof. split; reflexivity. Qed.

(** A throw in the middle of a pass leaves what the pass had written: the
    path is there, the line and the component are not. *)
Example tryBlock_partial :
  (tryBlock unprintable div).1.2 = Throw "TypeError: toString is not a function"
  ∧ getReactSourceInfo unprintable div =
      Normal {| r_filePath := Some "src/ui/Card.tsx";
                r_lineNumber := None;
                r_componentName := VNull |}.
Proof. split; reflexivity. Qed.

(** On a fiber that is its own parent the walk uses up its 20 passes. *)
Example walk_circular : length (visited circular span) = 20%nat.
Proof. reflexivity. Qed.

Lemma walk_bounded_and_stops_early_witness :
  (length (visited circular span) <= 20)%nat
  ∧ 2%nat = length (visited page div).
Proof.
  split.
  - apply (walk_bounded_and_stops_early circular span).
  - eapply (proj2 (proj2 (walk_bounded_and_stops_early page div)) 1%nat);
      [vm_compute; reflexivity|reflexivity].
Defined.

End ElementFacts.

(* ================================================================== *)
(** * The default copy text *)
(* ================================================================== *)

Section FormatFacts.
Import Js Extract Format.

(** C4.  On [{filePath: "a/b.tsx", lineNumber: "10", componentName: "Foo",
    className: "x y"}], whatever the tag name, the copy formatter of the
    default configuration gives three lines: the comment with path and
    line, the comment with the component, and the class attribute in
    double quotes, with no newline at the end. *)
Theorem formatCopyText_example (tag : string) (h : heap) :
  formatCopyText DEFAULT_CONFIG h
    {| className := "x y";
       filePath := Some "a/b.tsx";
       lineNumber := Some "10";
       componentName := VString "Foo";
       tagName := tag |}
  = Normal ("// a/b.tsx:10" +:+ newline +:+
            "// Component: Foo" +:+ newline +:+
            "className=" +:+ dquote +:+ "x y" +:+ dquote).
Proof. reflexivity. Qed.

(** The same text, code unit by code unit: 10 is the newline, 34 the
    double quote. *)
Example formatCopyText_example_units :
  cmap (fun text => map nat_of_ascii (String.list_ascii_of_string text))
    (formatCopyText DEFAULT_CONFIG ∅
       {| className := "x y"; filePath := Some "a/b.tsx";
          lineNumber := Some "10"; componentName := VString "Foo";
          tagName := "div" |})
  = Normal
    [47; 47; 32; 97; 47; 98; 46; 116; 115; 120; 58; 49; 48; 10;
     47; 47; 32; 67; 111; 109; 112; 111; 110; 101; 110; 116; 58; 32;
     70; 111; 111; 10;
     99; 108; 97; 115; 115; 78; 97; 109; 101; 61; 34; 120; 32; 121; 34]%nat.
Proof. reflexivity. Qed.

End FormatFacts.

(* ================================================================== *)
(** * The persisted flag *)
(* ================================================================== *)

Section FlagFacts.
Import Js Extract Format Session Spec Samples.

Lemma config_hideTooltip st : config (hideTooltip st) = config st.
Proof. unfold hideTooltip. now destruct (tooltip st). Qed.

Lemma localStorage_hideTooltip st : localStorage (hideTooltip st) = localStorage st.
Proof. unfold hideTooltip. now destruct (tooltip st). Qed.

Lemma config_setDebugEnabled b st : config (setDebugEnabled b st) = config st.
Proof. unfold setDebugEnabled. destruct b; [reflexivity|]. now rewrite config_hideTooltip. Qed.

Lemma localStorage_setDebugEnabled b st :
  localStorage (setDebugEnabled b st)
  = <[storageKey (config st) := bool_toString b]> (localStorage st).
Proof.
  unfold setDebugEnabled. destruct b; [reflexivity|].
  now rewrite localStorage_hideTooltip.
Qed.

Lemma isActive_setDebugEnabled b st : isActive (setDebugEnabled b st) = b.
Proof.
  unfold setDebugEnabled. destruct b; [reflexivity|].
  unfold hideTooltip. now destruct (tooltip _).
Qed.

(** [setEnabled(b)] then [isEnabled()] gives [b]. *)
Lemma isDebugEnabled_setDebugEnabled b st :
  isDebugEnabled (setDebugEnabled b st) = b.
Proof.
  unfold isDebugEnabled, getItem.
  rewrite config_setDebugEnabled, localStorage_setDebugEnabled, lookup_insert_eq.
  now destruct b.
Qed.

(** C9.  [isDebugEnabled] answers [true] exactly when the value persisted
    under the configured key is the string [true]; with any other value,
    and with no value at all, it answers [false]. *)
Theorem isDebugEnabled_spec st :
  (isDebugEnabled st = true ↔ stored st = Some "true")
  ∧ (isDebugEnabled st = false ↔ stored st ≠ Some "true").
Proof.
  unfold isDebugEnabled, stored. split.
  - apply bool_decide_eq_true.
  - apply bool_decide_eq_false.
Qed.

Example isDebugEnabled_default : isDebugEnabled (session ∅) = false.
Proof. reflexivity. Qed.

Example isDebugEnabled_other_value :
  isDebugEnabled (session {[ "devDebugEnabled" := "TRUE" ]}) = false
  ∧ isDebugEnabled (session {[ "devDebugEnabled" := "1" ]}) = false
  ∧ isDebugEnabled (session {[ "devDebugEnabled" := "true" ]}) = true.
Proof. repeat split; reflexivity. Qed.

(** C5 as stated fails where nothing was persisted: two toggles leave the
    string [false] under a key that was absent. *)
Lemma toggle_twice_changes_store : ¬ toggle_twice_restores (session ∅).
Proof. intros [_ H]. vm_compute in H. discriminate. Qed.

Lemma toggle_twice_result st : (toggle_twice st).2 = isDebugEnabled st.
Proof.
  unfold toggle_twice, toggleDebugMode. simpl.
  now rewrite isDebugEnabled_setDebugEnabled, negb_involutive.
Qed.

Lemma toggle_twice_store st :
  localStorage (toggle_twice st).1
  = <[storageKey (config st) := bool_toString (isDebugEnabled st)]>
      (localStorage st).
Proof.
  unfold toggle_twice, toggleDebugMode. simpl.
  rewrite isDebugEnabled_setDebugEnabled, negb_involutive.
  rewrite !localStorage_setDebugEnabled, config_setDebugEnabled.
  apply insert_insert_eq.
Qed.

(** C5, amended.  A toggle reads the persisted flag, negates it, persists
    the negation and returns it.  Two toggles in a row return the enabled
    state from before the first, and leave under the configured key the
    string form of that state, every other key being untouched. *)
Theorem toggle_twice_spec st :
  toggleDebugMode st
    = (setDebugEnabled (negb (isDebugEnabled st)) st, negb (isDebugEnabled st))
  ∧ isDebugEnabled (toggleDebugMode st).1 = negb (isDebugEnabled st)
  ∧ (toggle_twice st).2 = isDebugEnabled st
  ∧ localStorage (toggle_twice st).1
    = <[storageKey (config st) := bool_toString (isDebugEnabled st)]>
        (localStorage st).
Proof.
  split; [reflexivity|]. split.
  { unfold toggleDebugMode. simpl. apply isDebugEnabled_setDebugEnabled. }
  split; [apply toggle_twice_result|apply toggle_twice_store].
Qed.

(** Where the persisted value was already [true] or [false], two toggles
    leave the store as it was. *)
Lemma toggle_twice_canonical st :
  stored st = Some "true" ∨ stored st = Some "false" →
  localStorage (toggle_twice st).1 = localStorage st.
Proof.
  intros Hs. rewrite toggle_twice_store. apply insert_id.
  unfold isDebugEnabled. unfold stored in Hs.
  destruct Hs as [Hs|Hs]; rewrite Hs.
  - now rewrite bool_decide_eq_true_2.
  - now rewrite bool_decide_eq_false_2.
Qed.

End FlagFacts.

(* ================================================================== *)
(** * The pointer handlers *)
(* ================================================================== *)

Section HandlerFacts.
Import Js Extract Format Session Spec Samples.

Lemma str_app_neq a b : a ≠ EmptyString → a +:+ b ≠ b.
Proof.
  intros Ha Heq. apply (f_equal String.length) in Heq.
  rewrite str_length_app in Heq. destruct a; [congruence|]. simpl in Heq. lia.
Qed.

Lemma hideTooltip_hidden st tip :
  tooltip (hideTooltip st) = Some tip → display tip = "none".
Proof.
  unfold hideTooltip. destruct (tooltip st) as [tip0|] eqn:Ht; simpl.
  - now intros [= <-].
  - congruence.
Qed.

Lemma tooltip_showTooltip e text st :
  tooltip (showTooltip e text st)
  = Some {| textContent := text; display := "block";
            left := pretty (clientX e + 15) +:+ "px";
            top := pretty (clientY e + 15) +:+ "px" |}.
Proof. unfold showTooltip, createTooltip. now destruct (tooltip st). Qed.

(** C10.  Whenever a pointer move leaves the tooltip on display, the target
    had an info, and the tooltip's text is the hint line, a newline, and
    what the configured tooltip formatter makes of that info; so it is
    never the formatter's text alone. *)
Theorem mouseMoveHandler_tooltip_text h e st st' tip :
  mouseMoveHandler h e st = Normal st' →
  tooltip st' = Some tip →
  display tip = "block" →
  ∃ el info tooltipText,
    target e = Some el ∧ getElementInfo h el = Normal (Some info)
    ∧ formatTooltip (config st) h info = Normal tooltipText
    ∧ textContent tip = "[Ctrl+우클릭: 복사]" +:+ newline +:+ tooltipText
    ∧ textContent tip ≠ tooltipText.
Proof.
  unfold mouseMoveHandler.
  assert (Hhide : ∀ s, tooltip (hideTooltip s) = Some tip → display tip = "block" → False).
  { intros s Ht Hd. apply hideTooltip_hidden in Ht. congruence. }
  destruct (negb (isActive st) || negb (ctrlPressed st)).
  { intros [= <-] Ht Hd. destruct (Hhide _ Ht Hd). }
  destruct (target e) as [el|].
  2:{ intros [= <-] Ht Hd. destruct (Hhide _ Ht Hd). }
  destruct (getElementInfo h el) as [[info|]|err] eqn:Hg.
  - destruct (formatTooltip (config st) h info) as [tooltipText|err] eqn:Hf;
      [|discriminate].
    intros [= <-]. rewrite tooltip_showTooltip. intros [= <-] _.
    exists el, info, tooltipText. simpl. repeat split; auto.
    change (hint +:+ newline +:+ tooltipText)
      with ((hint +:+ newline) +:+ tooltipText).
    apply str_app_neq. discriminate.
  - intros [= <-] Ht Hd. destruct (Hhide _ Ht Hd).
  - discriminate.
Qed.

Lemma mouseMoveHandler_tooltip_text_witness :
  ∃ el info tooltipText,
    target (pointer div) = Some el ∧ getElementInfo page el = Normal (Some info)
    ∧ formatTooltip DEFAULT_CONFIG page info = Normal tooltipText
    ∧ "[Ctrl+우클릭: 복사]" +:+ newline +:+ "📁 src/App.tsx:30" +:+ newline +:+
      "⚛️ Home" +:+ newline +:+ "🏷️ x y"
      = "[Ctrl+우클릭: 복사]" +:+ newline +:+ tooltipText
    ∧ "[Ctrl+우클릭: 복사]" +:+ newline +:+ "📁 src/App.tsx:30" +:+ newline +:+
      "⚛️ Home" +:+ newline +:+ "🏷️ x y"
      ≠ tooltipText.
Proof.
  eapply (mouseMoveHandler_tooltip_text page (pointer div) (session ∅) _
            {| textContent := _; display := "block"; left := "115px"; top := "55px" |});
    [vm_compute; reflexivity|reflexivity|reflexivity].
Defined.

(** C6.  The default menu is suppressed exactly when the helper is active,
    the modifier is held and the target has an info.  Where it is not
    suppressed the handler has returned at once: it completes and the
    state is as it was.  Where it is suppressed the copy text is made of
    the info and, if making it does not throw and the clipboard is
    there, handed to the clipboard, nothing else changing; a handler that
    throws on the way leaves the state as it was. *)
Theorem contextMenuHandler_spec h clipboardApi e st :
  let r := contextMenuHandler h clipboardApi e st in
  (defaultPrevented r = true ↔
   isActive st = true ∧ ctrlPressed st = true
   ∧ ∃ el info, target e = Some el ∧ getElementInfo h el = Normal (Some info))
  ∧ (defaultPrevented r = false → state_after r = st ∧ completed r = Normal tt)
  ∧ (∀ el info copyText,
       defaultPrevented r = true → target e = Some el →
       getElementInfo h el = Normal (Some info) →
       formatCopyText (config st) h info = Normal copyText →
       clipboardApi = true →
       state_after r = with_clipboard (clipboard st ++ [copyText]) st
       ∧ completed r = Normal tt)
  ∧ (completed r ≠ Normal tt → state_after r = st).
Proof.
  unfold contextMenuHandler.
  destruct (isActive st) eqn:Ha; simpl.
  2:{ split; [split; [discriminate|intros (? & _); discriminate]|].
      split; [auto|]. split; [intros; discriminate|reflexivity]. }
  destruct (ctrlPressed st) eqn:Hc; simpl.
  2:{ split; [split; [discriminate|intros (_ & ? & _); discriminate]|].
      split; [auto|]. split; [intros; discriminate|reflexivity]. }
  destruct (target e) as [el|] eqn:Ht.
  2:{ split; [split; [discriminate|intros (_ & _ & el & info & ? & _); discriminate]|].
      split; [auto|]. split; [intros; discriminate|reflexivity]. }
  destruct (getElementInfo_total h el) as [r Hr]. rewrite Hr.
  destruct r as [info|].
  - assert (Harmed : true = true ∧ true = true
                     ∧ ∃ el0 info0, Some el = Some el0
                                    ∧ getElementInfo h el0 = Normal (Some info0)).
    { repeat split. now exists el, info. }
    destruct (formatCopyText (config st) h info) as [copyText|err] eqn:Hf.
    + destruct clipboardApi; simpl.
      * split; [split; auto|]. split; [discriminate|]. split.
        -- intros el' info' copyText' _ [= <-] Hg' Hf' _.
           rewrite Hr in Hg'. injection Hg' as <-.
           rewrite Hf in Hf'. now injection Hf' as <-.
        -- congruence.
      * split; [split; auto|]. split; [discriminate|]. split; [|reflexivity].
        intros; discriminate.
    + simpl. split; [split; auto|]. split; [discriminate|]. split; [|reflexivity].
      intros el' info' copyText' _ [= <-] Hg' Hf' _.
      rewrite Hr in Hg'. injection Hg' as <-. congruence.
  - simpl. split.
    + split; [discriminate|]. intros (_ & _ & el' & info & [= <-] & Hg).
      rewrite Hr in Hg. discriminate.
    + split; [auto|]. split; [intros; discriminate|reflexivity].
Qed.

Lemma contextMenuHandler_spec_witness :
  state_after (contextMenuHandler page true (pointer svg) (session ∅)) = session ∅
  ∧ completed (contextMenuHandler page true (pointer svg) (session ∅)) = Normal tt.
Proof.
  apply (proj1 (proj2 (contextMenuHandler_spec page true (pointer svg) (session ∅)))).
  reflexivity.
Defined.

Example contextMenuHandler_copies :
  contextMenuHandler page true (pointer div) (session ∅)
  = {| state_after :=
         with_clipboard
           ["// src/App.tsx:30" +:+ newline +:+ "// Component: Home" +:+ newline +:+
            "className=" +:+ dquote +:+ "x y" +:+ dquote]
           (session ∅);
       defaultPrevented := true;
       completed := Normal tt |}.
Proof. reflexivity. Qed.

(** Where the component name is an object that cannot be printed, the
    menu is suppressed, the formatter throws, and nothing is copied. *)
Example contextMenuHandler_formatter_throws :
  contextMenuHandler nameless true (pointer div) (session ∅)
  = {| state_after := session ∅;
       defaultPrevented := true;
       completed := Throw "TypeError: Cannot convert object to primitive value" |}.
Proof. reflexivity. Qed.

(** The same for the tooltip: the handler throws and the tooltip is not
    touched. *)
Example mouseMoveHandler_formatter_throws :
  mouseMoveHandler nameless (pointer div) (session ∅)
  = Throw "TypeError: Cannot convert object to primitive value".
Proof. reflexivity. Qed.

End HandlerFacts.

(* ================================================================== *)
(** * More on the extraction *)
(* ================================================================== *)

Section ExtractMore.
Import Js Extract Spec Samples.

Lemma no_slash_startsWith s : ¬ occurs "/" s → startsWith s "/" = false.
Proof.
  intros Hno. destruct (startsWith s "/") eqn:E; [|reflexivity].
  exfalso. apply Hno. apply startsWith_spec in E as [post E].
  now exists EmptyString, post.
Qed.

Lemma relativePath_cases f :
  (∃ pre post, f = pre +:+ "/src/" +:+ post ∧ relativePath f = "src/" +:+ post)
  ∨ (¬ occurs "/" (relativePath f)
     ∧ (f = relativePath f ∨ ∃ dir, f = dir +:+ "/" +:+ relativePath f)).
Proof.
  destruct (find_first "/src/" f) as [n|] eqn:F.
  - left. destruct (find_first_Some _ _ _ F) as (pre & post & Hs & Hl).
    exists pre, post. split; [exact Hs|].
    rewrite (relativePath_src _ _ F). rewrite Hs at 1. rewrite <- Hl.
    apply (drop_chars_app_S pre "/"%char ("src/" +:+ post)).
  - right. destruct (find_last "/" f) as [n|] eqn:L.
    + destruct (find_last_Some _ _ _ L) as (pre & post & Hs & Hl).
      assert (Hr : relativePath f = post).
      { rewrite (relativePath_slash _ _ F L). rewrite Hs at 1. rewrite <- Hl.
        apply (drop_chars_app_S pre "/"%char post). }
      rewrite Hr. split; [|right; now exists pre].
      intros (a & b & Hp).
      assert (Hs' : f = (pre +:+ "/" +:+ a) +:+ "/" +:+ b).
      { rewrite Hs, Hp. now rewrite !str_app_assoc. }
      pose proof (find_last_max _ _ _ _ _ L Hs') as Hle.
      rewrite !str_length_app in Hle. simpl in Hle. lia.
    + rewrite (relativePath_bare _ F L). split; [|now left].
      now apply find_last_None.
Qed.

(** X1.  The relative path is always a tail of the file name, and it never
    begins with a slash. *)
Theorem relativePath_suffix f :
  (∃ pre, f = pre +:+ relativePath f)
  ∧ startsWith (relativePath f) "/" = false.
Proof.
  destruct (relativePath_cases f) as [(pre & post & Hs & Hr)|(Hno & Hf)].
  - rewrite Hr. split; [|reflexivity].
    exists (pre +:+ "/"). rewrite str_app_assoc. exact Hs.
  - split; [|now apply no_slash_startsWith].
    destruct Hf as [Hf|(dir & Hf)].
    + now exists EmptyString.
    + exists (dir +:+ "/"). now rewrite str_app_assoc.
Qed.

(** X2.  A node with a class string and no own property whose name starts
    with [__reactFiber$] or [__reactInternalInstance$] gets an info with
    its class and tag and with all three framework fields [null]. *)
Theorem getElementInfo_without_fiber h el s :
  findFiberKey el = None → el_className el = VString s → s ≠ EmptyString →
  getElementInfo h el =
    Normal (Some {| className := s;
                    filePath := None;
                    lineNumber := None;
                    componentName := VNull;
                    tagName := toLowerCase (el_tagName el) |}).
Proof.
  intros Hk Hc Hs. unfold getElementInfo. rewrite Hc. simpl truthy.
  destruct (String.eqb_spec s EmptyString) as [|_]; [contradiction|].
  simpl negb. cbv iota.
  unfold getReactSourceInfo, getReactSourceInfo_traced, tryBlock.
  now rewrite Hk.
Qed.

Lemma or_null_not_empty o : or_null o ≠ Some EmptyString.
Proof.
  unfold or_null. destruct o as [s|]; simpl; [|discriminate].
  destruct (String.eqb_spec s EmptyString); simpl; congruence.
Qed.

Lemma value_or_null_cases v :
  value_or_null v = VNull ∨ truthy (value_or_null v) = true.
Proof.
  unfold value_or_null. destruct (truthy v) eqn:E; [now right|now left].
Qed.

(** X3.  In an info that [getElementInfo] returns, the file path and the
    line number are [null] or a string that is not empty, and the
    component name is [null] or truthy: an empty or falsy find of the
    walk is turned into [null]. *)
Theorem getElementInfo_fields_normalised h el info :
  getElementInfo h el = Normal (Some info) →
  filePath info ≠ Some EmptyString
  ∧ lineNumber info ≠ Some EmptyString
  ∧ (componentName info = VNull ∨ truthy (componentName info) = true).
Proof.
  unfold getElementInfo.
  destruct (el_className el) as [| |b|n|s|l]; try discriminate.
  destruct (negb _); [discriminate|].
  rewrite getReactSourceInfo_tryBlock. intros [= <-]. simpl.
  split; [apply or_null_not_empty|]. split; [apply or_null_not_empty|].
  apply value_or_null_cases.
Qed.

Lemma visit_line_path h fiber r :
  (is_Some (r_lineNumber r) → is_Some (r_filePath r)) →
  is_Some (r_lineNumber (visit h fiber r).1) →
  is_Some (r_filePath (visit h fiber r).1).
Proof.
  intros Hr. unfold visit, bind.
  destruct (readDebugSource h fiber r) as [r1 c1] eqn:D.
  apply readDebugSource_fields in D as (_ & D).
  assert (H1 : is_Some (r_lineNumber r1) → is_Some (r_filePath r1)).
  { destruct D as [[-> ->]|[(p & -> & _) _]]; [exact Hr|eauto]. }
  destruct c1 as [u|e]; [|exact H1].
  destruct (readComponentName h fiber r1) as [r2 c2] eqn:C.
  apply readComponentName_fields in C as (_ & Cf & Cl & _).
  simpl. now rewrite Cf, Cl.
Qed.

Lemma walk_line_path h n fiber r :
  (is_Some (r_lineNumber r) → is_Some (r_filePath r)) →
  is_Some (r_lineNumber (walk h n fiber r).1.1) →
  is_Some (r_filePath (walk h n fiber r).1.1).
Proof.
  revert fiber r. induction n as [|n IH]; intros fiber r Hr; [exact Hr|].
  rewrite walk_S. destruct (truthy fiber); [|exact Hr].
  pose proof (visit_line_path h fiber r Hr) as Hv.
  destruct (visit h fiber r) as [r' [u|e]]; simpl in Hv; [|exact Hv].
  destruct (found r'); [exact Hv|].
  specialize (IH (get h fiber "return") r' Hv).
  now destruct (walk h n (get h fiber "return") r') as [[r'' c] t].
Qed.

(** X4.  [getReactSourceInfo] never reports a line number without having
    written a file path: the line is only ever assigned right after the
    path. *)
Theorem lineNumber_needs_filePath h el r :
  getReactSourceInfo h el = Normal r →
  is_Some (r_lineNumber r) → is_Some (r_filePath r).
Proof.
  rewrite getReactSourceInfo_tryBlock. intros [= <-]. unfold tryBlock.
  destruct (findFiberKey el) as [key|].
  - apply walk_line_path. simpl. intros [x Hx]. discriminate.
  - simpl. intros [x Hx]. discriminate.
Qed.

Lemma walk_snapshot_componentName h n fiber r i f ri :
  (walk h n fiber r).2 !! i = Some (f, ri) →
  truthy (r_componentName ri) = true →
  r_componentName (walk h n fiber r).1.1 = r_componentName ri.
Proof.
  revert fiber r i. induction n as [|n IH]; intros fiber r i; [discriminate|].
  rewrite walk_S. destruct (truthy fiber); [|discriminate].
  destruct (visit h fiber r) as [r' [u|e]].
  - destruct (found r').
    + destruct i as [|i]; [|discriminate]. now intros [= _ <-].
    + pose proof (walk_componentName_kept h n (get h fiber "return") r') as Hk.
      specialize (IH (get h fiber "return") r').
      destruct (walk h n (get h fiber "return") r') as [[r'' c] t].
      simpl in *. destruct i as [|i]; simpl.
      * intros [= _ <-] Ht. now apply Hk.
      * apply IH.
  - destruct i as [|i]; [|discriminate]. now intros [= _ <-].
Qed.

(** X5.  The first component name found is the one returned: once a pass
    of the walk has left a truthy component name in [result], no fiber
    further up changes it. *)
Theorem componentName_first_wins h el i f ri :
  visited h el !! i = Some (f, ri) →
  truthy (r_componentName ri) = true →
  ∃ r, getReactSourceInfo h el = Normal r
       ∧ r_componentName r = r_componentName ri.
Proof.
  rewrite visited_tryBlock, getReactSourceInfo_tryBlock. unfold tryBlock.
  destruct (findFiberKey el) as [key|]; [|discriminate].
  intros Hi Ht. eexists. split; [reflexivity|].
  eapply walk_snapshot_componentName; eauto.
Qed.

(** X6.  Every pass over a fiber whose debug info names a file writes that
    file's relative path into [result], whatever path was there before:
    the path has no guard of the kind the component name has. *)
Theorem visit_overwrites_filePath h fiber r s :
  get h (get h fiber "_debugSource") "fileName" = VString s →
  s ≠ EmptyString →
  r_filePath (visit h fiber r).1 = Some (relativePath s).
Proof.
  intros Hfn Hs. pose proof (readDebugSource_filePath h fiber r s Hfn Hs) as Hp.
  unfold visit, bind.
  destruct (readDebugSource h fiber r) as [r1 [u|e]]; simpl in Hp; [|exact Hp].
  destruct (readComponentName h fiber r1) as [r2 c2] eqn:C.
  apply readComponentName_fields in C as (_ & Cf & _). simpl. congruence.
Qed.

(** X7.  A fiber whose [type] is a string, the tag of a built-in element,
    never supplies the component name. *)
Theorem visit_ignores_string_type h fiber r :
  is_string (get h fiber "type") = true →
  r_componentName (visit h fiber r).1 = r_componentName r.
Proof.
  intros Hs. unfold visit, bind.
  destruct (readDebugSource h fiber r) as [r1 c1] eqn:D.
  apply readDebugSource_fields in D as (Dc & _).
  destruct c1 as [u|e]; [|exact Dc].
  unfold readComponentName, bind, read, ret.
  destruct (get h fiber "type") as [| |b|n|s|l]; try discriminate.
  destruct (truthy (VString s)); [|exact Dc].
  simpl. exact Dc.
Qed.

Lemma readDebugSource_throws h fiber r :
  truthy (get h (get h fiber "_debugSource") "fileName") = true →
  is_string (get h (get h fiber "_debugSource") "fileName") = false →
  readDebugSource h fiber r
  = (r, Throw "TypeError: filePath.indexOf is not a function").
Proof.
  intros Ht Hs. unfold readDebugSource.
  destruct (get h fiber "_debugSource") as [| |b|n|s|l] eqn:Hsrc;
    try discriminate.
  cbn [truthy]. rewrite Ht. unfold bind.
  destruct (get h (VObject l) "fileName"); try discriminate; reflexivity.
Qed.

(** X8.  When the node's own fiber carries debug info whose file name is
    the boolean [true] or a number other than 0, the walk throws on its
    first pass, for want of an [indexOf], the throw is caught, and all
    three fields come back [null], whatever the fiber and its ancestors
    had to offer. *)
Theorem getReactSourceInfo_malformed_fileName h el key :
  findFiberKey el = Some key →
  (get h (get h (own el key) "_debugSource") "fileName" = VBool true
   ∨ ∃ n, get h (get h (own el key) "_debugSource") "fileName" = VNumber n
          ∧ n ≠ 0) →
  getReactSourceInfo h el = Normal emptyInfo.
Proof.
  intros Hk Hfn.
  assert (Hts : truthy (get h (get h (own el key) "_debugSource") "fileName") = true
                ∧ is_string (get h (get h (own el key) "_debugSource") "fileName")
                  = false).
  { destruct Hfn as [->|(n & -> & Hn)]; [split; reflexivity|].
    split; [|reflexivity]. simpl. now destruct (Z.eqb_spec n 0). }
  destruct Hts as [Ht Hs].
  rewrite getReactSourceInfo_tryBlock. unfold tryBlock.
  rewrite Hk. rewrite walk_S.
  assert (Hf : truthy (own el key) = true).
  { destruct (own el key); try discriminate; reflexivity. }
  rewrite Hf. unfold visit, bind.
  now rewrite (readDebugSource_throws h (own el key) emptyInfo Ht Hs).
Qed.

End ExtractMore.

(* ================================================================== *)
(** * More on the formatters *)
(* ================================================================== *)

Section FormatMore.
Import Js Extract Format.

Lemma length_take_chars n s : (String.length (take_chars n s) <= n)%nat.
Proof.
  revert s. induction n as [|n IH]; intros [|a s]; simpl; try lia.
  specialize (IH s). lia.
Qed.

Lemma take_chars_take_chars n s : take_chars n (take_chars n s) = take_chars n s.
Proof.
  revert s. induction n as [|n IH]; intros [|a s]; simpl; try reflexivity.
  now rewrite IH.
Qed.

Lemma take_chars_app n s t :
  (n <= String.length s)%nat → take_chars n (s +:+ t) = take_chars n s.
Proof.
  revert s. induction n as [|n IH]; intros [|a s]; simpl; try reflexivity; try lia.
  intros Hn. rewrite ?str_app_cons. simpl. rewrite IH; [reflexivity|lia].
Qed.

Lemma take_chars_all n s : (String.length s <= n)%nat → take_chars n s = s.
Proof.
  revert s. induction n as [|n IH]; intros [|a s]; simpl; try reflexivity; try lia.
  intros Hn. rewrite IH; [reflexivity|lia].
Qed.

Lemma length_take_chars_eq n s :
  (n <= String.length s)%nat → String.length (take_chars n s) = n.
Proof.
  revert s. induction n as [|n IH]; intros [|a s]; simpl; try reflexivity; try lia.
  intros Hn. rewrite IH; [reflexivity|lia].
Qed.

(** X9.  Neither default formatter shows a line number without a file
    path: on an info whose file path is [null] or empty the outcome is
    the same whatever the line number is. *)
Theorem formatters_need_path_for_line h cls path comp tag ln ln' :
  truthy_field path = false →
  let info l := {| className := cls; filePath := path; lineNumber := l;
                   componentName := comp; tagName := tag |} in
  DEFAULT_formatCopyText h (info ln) = DEFAULT_formatCopyText h (info ln')
  ∧ DEFAULT_formatTooltip h (info ln) = DEFAULT_formatTooltip h (info ln').
Proof.
  intros Hp info. unfold DEFAULT_formatCopyText, DEFAULT_formatTooltip.
  simpl. rewrite Hp. split; reflexivity.
Qed.

(** X10.  The default tooltip ends with at most 63 code units of the class
    string: after the same lines as for an empty class string comes a
    text of length at most 63 that agrees with the class string on its
    first 60 code units; and it throws exactly when it does for an empty
    class string. *)
Theorem formatTooltip_class_bounded h cls path ln comp tag :
  let info c := {| className := c; filePath := path; lineNumber := ln;
                   componentName := comp; tagName := tag |} in
  ∃ shown,
    DEFAULT_formatTooltip h (info cls)
      = cmap (fun head => head +:+ shown) (DEFAULT_formatTooltip h (info EmptyString))
    ∧ (String.length shown <= 63)%nat
    ∧ take_chars 60 shown = take_chars 60 cls.
Proof.
  intros info.
  exists (if 60 <? str_length cls then substring_to cls 60 +:+ "..." else cls).
  split.
  - unfold DEFAULT_formatTooltip. simpl className. simpl filePath.
    simpl lineNumber. simpl componentName.
    change (60 <? str_length EmptyString) with false. cbv iota.
    unfold cmap, cbind.
    destruct (truthy comp); [destruct (template h comp) as [name|err]|];
      try reflexivity; rewrite !str_app_assoc; repeat f_equal.
  - unfold str_length, substring_to.
    destruct (Z.ltb_spec 60 (Z.of_nat (String.length cls))) as [Hlt|Hge].
    + split.
      * rewrite str_length_app. pose proof (length_take_chars 60 cls) as Hk.
        change (Z.to_nat 60) with 60%nat.
        change (String.length "...") with 3%nat. lia.
      * change (Z.to_nat 60) with 60%nat.
        rewrite take_chars_app; [apply take_chars_take_chars|].
        rewrite length_take_chars_eq; lia.
    + split; [lia|reflexivity].
Qed.

End FormatMore.

(* ================================================================== *)
(** * The copy notification *)
(* ================================================================== *)

Section ToastFacts.
Import Js Toast.

Lemma split_cons sep s : ∃ piece pieces, split sep s = piece :: pieces.
Proof.
  destruct s as [|c s]; simpl; [eauto|].
  destruct (Ascii.eqb c sep); [eauto|].
  destruct (split sep s); eauto.
Qed.

Lemma join_cons_char sep c piece pieces :
  join sep (String c piece :: pieces) = String c (join sep (piece :: pieces)).
Proof. destruct pieces; reflexivity. Qed.

Lemma join_split sep s : join (String sep EmptyString) (split sep s) = s.
Proof.
  induction s as [|c s IH]; [reflexivity|]. simpl.
  destruct (Ascii.eqb_spec c sep) as [->|Hne].
  - destruct (split_cons sep s) as (piece & pieces & Hs).
    rewrite Hs in *. simpl join in *. now rewrite IH.
  - destruct (split_cons sep s) as (piece & pieces & Hs).
    rewrite Hs in *. rewrite join_cons_char. now rewrite IH.
Qed.

Lemma length_split sep s : length (split sep s) = S (count_char sep s).
Proof.
  induction s as [|c s IH]; [reflexivity|]. simpl.
  destruct (Ascii.eqb c sep); simpl; [now rewrite IH|].
  destruct (split sep s); simpl in *; lia.
Qed.

Lemma split_clean sep s : Forall (λ piece, count_char sep piece = 0%nat) (split sep s).
Proof.
  induction s as [|c s IH]; simpl; [repeat constructor|].
  destruct (Ascii.eqb c sep) eqn:E; [constructor; [reflexivity|exact IH]|].
  destruct (split sep s) as [|piece pieces]; [repeat constructor; simpl; now rewrite E|].
  inversion IH; subst. constructor; [|assumption]. simpl. now rewrite E.
Qed.

Lemma count_char_app c s t :
  count_char c (s +:+ t) = (count_char c s + count_char c t)%nat.
Proof.
  induction s as [|a s IH]; [reflexivity|]. rewrite str_app_cons. simpl.
  destruct (Ascii.eqb a c); lia.
Qed.

Lemma count_char_join sep l :
  Forall (λ piece, count_char sep piece = 0%nat) l →
  count_char sep (join (String sep EmptyString) l) = pred (length l).
Proof.
  induction 1 as [|piece rest Hp Hrest IH]; [reflexivity|].
  destruct rest as [|piece' rest]; [exact Hp|].
  change (join (String sep EmptyString) (piece :: piece' :: rest))
    with (piece +:+ String sep EmptyString +:+ join (String sep EmptyString) (piece' :: rest)).
  rewrite !count_char_app, Hp, IH. simpl. now rewrite Ascii.eqb_refl.
Qed.

Lemma count_char_take_chars c n s :
  (count_char c (take_chars n s) <= count_char c s)%nat.
Proof.
  revert s. induction n as [|n IH]; intros [|a s]; simpl; try lia.
  specialize (IH s). destruct (Ascii.eqb a c); lia.
Qed.

Lemma join_app sep l1 l2 :
  l1 ≠ [] → l2 ≠ [] →
  join sep (l1 ++ l2) = join sep l1 +:+ sep +:+ join sep l2.
Proof.
  intros H1 H2. induction l1 as [|a l1 IH]; [contradiction|].
  destruct l1 as [|b l1].
  - destruct l2; [contradiction|reflexivity].
  - change (join sep ((a :: b :: l1) ++ l2))
      with (a +:+ sep +:+ join sep ((b :: l1) ++ l2)).
    rewrite IH by discriminate.
    change (join sep (a :: b :: l1)) with (a +:+ sep +:+ join sep (b :: l1)).
    now rewrite !str_app_assoc.
Qed.

Lemma count_char_preview text : (count_char newline_char (preview text) <= 3)%nat.
Proof.
  unfold preview. pose proof (length_split newline_char text) as Hl.
  destruct (Z.ltb_spec 3 (Z.of_nat (length (split newline_char text)))) as [Hlt|Hge].
  - rewrite !count_char_app.
    rewrite (count_char_join newline_char) by (apply Forall_take, split_clean).
    rewrite length_take.
    change (count_char newline_char newline) with 1%nat.
    change (count_char newline_char "...") with 0%nat. lia.
  - lia.
Qed.

(** X11.  The text shown in the notification never has more than 153 code
    units. *)
Theorem displayText_length text : (String.length (displayText text) <= 153)%nat.
Proof.
  unfold displayText, str_length, substring_to.
  destruct (Z.ltb_spec 150 (Z.of_nat (String.length (preview text)))) as [Hlt|Hge].
  - rewrite str_length_app. pose proof (length_take_chars 150 (preview text)) as Hk.
    change (Z.to_nat 150) with 150%nat.
    change (String.length "...") with 3%nat. lia.
  - lia.
Qed.

(** X12.  The text shown in the notification never has more than four
    lines. *)
Theorem displayText_lines text :
  (length (split newline_char (displayText text)) <= 4)%nat.
Proof.
  rewrite length_split. unfold displayText, substring_to.
  pose proof (count_char_preview text) as Hp.
  destruct (150 <? str_length (preview text)); [|lia].
  rewrite count_char_app.
  pose proof (count_char_take_chars newline_char (Z.to_nat 150) (preview text)).
  change (count_char newline_char "...") with 0%nat. lia.
Qed.

(** X13.  A copied text of at most three lines and at most 150 code units
    is shown as it is. *)
Theorem displayText_short text :
  (length (split newline_char text) <= 3)%nat →
  (String.length text <= 150)%nat →
  displayText text = text.
Proof.
  intros Hl Hn. unfold displayText, preview, str_length.
  destruct (Z.ltb_spec 3 (Z.of_nat (length (split newline_char text)))) as [|_]; [lia|].
  destruct (Z.ltb_spec 150 (Z.of_nat (String.length text))) as [|_]; [lia|].
  reflexivity.
Qed.

(** X14.  Of a copied text of more than three lines the preview keeps the
    first three lines, which are the beginning of the text up to its
    third newline, and replaces what follows that newline by three dots. *)
Theorem preview_long text :
  (3 < length (split newline_char text))%nat →
  ∃ head rest,
    length (split newline_char head) = 3%nat
    ∧ text = head +:+ newline +:+ rest
    ∧ preview text = head +:+ newline +:+ "...".
Proof.
  intros Hl. set (lines := split newline_char text) in *.
  exists (join newline (take 3 lines)), (join newline (drop 3 lines)).
  assert (Htake : take 3 lines ≠ []).
  { intros E. apply (f_equal length) in E. rewrite length_take in E.
    change (length (@nil string)) with 0%nat in E. lia. }
  assert (Hdrop : drop 3 lines ≠ []).
  { intros E. apply (f_equal length) in E. rewrite length_drop in E.
    change (length (@nil string)) with 0%nat in E. lia. }
  split; [|split].
  - rewrite length_split.
    rewrite (count_char_join newline_char) by (apply Forall_take, split_clean).
    rewrite length_take. lia.
  - rewrite <- (join_app newline _ _ Htake Hdrop), take_drop.
    symmetry. apply join_split.
  - unfold preview. fold lines.
    destruct (Z.ltb_spec 3 (Z.of_nat (length lines))) as [_|]; [reflexivity|lia].
Qed.

Lemma count_char_replaceAll c by_ s :
  count_char c by_ = 0%nat → count_char c (replaceAll c by_ s) = 0%nat.
Proof.
  intros Hb. induction s as [|a s IH]; [reflexivity|]. simpl.
  destruct (Ascii.eqb a c) eqn:E.
  - now rewrite count_char_app, Hb, IH.
  - simpl. now rewrite E.
Qed.

(** X15.  No newline reaches the notification's markup: every one of them
    has become a [<br>]. *)
Theorem displayHtml_no_newline text :
  count_char newline_char (displayHtml text) = 0%nat.
Proof. apply count_char_replaceAll. reflexivity. Qed.

End ToastFacts.

(* ================================================================== *)
(** * More on the session and the handlers *)
(* ================================================================== *)

Section SessionMore.
Import Js Extract Format Session Spec.

Lemma with_tooltip_same st : with_tooltip (tooltip st) st = st.
Proof. now destruct st. Qed.

Lemma hideTooltip_frame st : hideTooltip st = with_tooltip (tooltip (hideTooltip st)) st.
Proof.
  unfold hideTooltip. destruct (tooltip st) eqn:Ht; [reflexivity|].
  rewrite Ht. rewrite <- Ht. symmetry. apply with_tooltip_same.
Qed.

Lemma hideTooltip_idem st : hideTooltip (hideTooltip st) = hideTooltip st.
Proof. unfold hideTooltip. destruct (tooltip st) eqn:Ht; simpl; [reflexivity|now rewrite Ht]. Qed.

Lemma hideTooltip_None st : tooltip st = None → tooltip (hideTooltip st) = None.
Proof. intros Ht. unfold hideTooltip. now rewrite Ht. Qed.

(** X16.  After [setDebugEnabled(b)] the active flag and the persisted
    flag both are [b]; the store differs only under the configured key,
    where it holds the string form of [b]; configuration and clipboard
    are untouched. *)
Theorem setDebugEnabled_agrees b st :
  isActive (setDebugEnabled b st) = b
  ∧ isDebugEnabled (setDebugEnabled b st) = b
  ∧ localStorage (setDebugEnabled b st)
    = <[storageKey (config st) := bool_toString b]> (localStorage st)
  ∧ config (setDebugEnabled b st) = config st
  ∧ clipboard (setDebugEnabled b st) = clipboard st.
Proof.
  split; [apply isActive_setDebugEnabled|].
  split; [apply isDebugEnabled_setDebugEnabled|].
  split; [apply localStorage_setDebugEnabled|].
  split; [apply config_setDebugEnabled|].
  unfold setDebugEnabled. destruct b; [reflexivity|].
  unfold hideTooltip. simpl. now destruct (tooltip st).
Qed.

(** X17.  Setting the same flag twice is the same as setting it once. *)
Theorem setDebugEnabled_idempotent b st :
  setDebugEnabled b (setDebugEnabled b st) = setDebugEnabled b st.
Proof.
  unfold setDebugEnabled. destruct b.
  - unfold with_isActive, with_localStorage, setItem. simpl. f_equal.
    apply insert_insert_eq.
  - unfold hideTooltip, with_isActive, with_localStorage, with_tooltip, setItem.
    simpl. destruct (tooltip st); simpl; f_equal; apply insert_insert_eq.
Qed.

(** X18.  Disabling hides the tooltip; enabling leaves the tooltip as it
    is and in particular does not show it. *)
Theorem setDebugEnabled_tooltip st :
  tooltip (setDebugEnabled true st) = tooltip st
  ∧ ∀ tip, tooltip (setDebugEnabled false st) = Some tip → display tip = "none".
Proof.
  split; [reflexivity|]. intros tip. unfold setDebugEnabled.
  apply hideTooltip_hidden.
Qed.

Lemma mouseMoveHandler_frame h e st st' :
  mouseMoveHandler h e st = Normal st' → st' = with_tooltip (tooltip st') st.
Proof.
  unfold mouseMoveHandler.
  destruct (negb (isActive st) || negb (ctrlPressed st)).
  { intros [= <-]. apply hideTooltip_frame. }
  destruct (target e) as [el|].
  2:{ intros [= <-]. apply hideTooltip_frame. }
  destruct (getElementInfo h el) as [[info|]|err]; [| |discriminate].
  - destruct (formatTooltip (config st) h info) as [tooltipText|err];
      [|discriminate].
    intros [= <-]. unfold showTooltip, createTooltip. now destruct (tooltip st).
  - intros [= <-]. apply hideTooltip_frame.
Qed.

(** X19.  A pointer move touches nothing but the tooltip: flags,
    configuration, store and clipboard are as before.  The handler
    throws only where the helper is armed, the target has an info and
    the configured tooltip formatter throws on it, and then it has
    touched nothing at all. *)
Theorem mouseMoveHandler_only_tooltip h e st :
  (∀ st', mouseMoveHandler h e st = Normal st' →
     isInitialized st' = isInitialized st
     ∧ isActive st' = isActive st
     ∧ config st' = config st
     ∧ ctrlPressed st' = ctrlPressed st
     ∧ localStorage st' = localStorage st
     ∧ clipboard st' = clipboard st)
  ∧ (∀ err, mouseMoveHandler h e st = Throw err →
       isActive st = true ∧ ctrlPressed st = true
       ∧ ∃ el info, target e = Some el
                    ∧ getElementInfo h el = Normal (Some info)
                    ∧ formatTooltip (config st) h info = Throw err).
Proof.
  split.
  - intros st' Hrun. apply mouseMoveHandler_frame in Hrun. rewrite Hrun.
    repeat split.
  - intros err. unfold mouseMoveHandler.
    destruct (isActive st); [|discriminate].
    destruct (ctrlPressed st); [|discriminate]. simpl.
    destruct (target e) as [el|]; [|discriminate].
    destruct (getElementInfo_total h el) as [r Hr]. rewrite Hr.
    destruct r as [info|]; [|discriminate].
    destruct (formatTooltip (config st) h info) as [tooltipText|err'] eqn:Hf;
      [discriminate|].
    intros [= <-]. repeat split. now exists el, info.
Qed.

(** X20.  After a pointer move the tooltip is on display only if the
    helper is active and the modifier is held, and then it sits 15 pixels
    right of and below the pointer. *)
Theorem mouseMoveHandler_shows_only_when_armed h e st st' tip :
  mouseMoveHandler h e st = Normal st' →
  tooltip st' = Some tip →
  display tip = "block" →
  isActive st = true ∧ ctrlPressed st = true
  ∧ left tip = pretty (clientX e + 15) +:+ "px"
  ∧ top tip = pretty (clientY e + 15) +:+ "px".
Proof.
  unfold mouseMoveHandler.
  assert (Hhide : ∀ s, tooltip (hideTooltip s) = Some tip → display tip = "block" → False).
  { intros s Ht Hd. apply hideTooltip_hidden in Ht. congruence. }
  destruct (isActive st); simpl.
  2:{ intros [= <-] Ht Hd. destruct (Hhide _ Ht Hd). }
  destruct (ctrlPressed st); simpl.
  2:{ intros [= <-] Ht Hd. destruct (Hhide _ Ht Hd). }
  destruct (target e) as [el|].
  2:{ intros [= <-] Ht Hd. destruct (Hhide _ Ht Hd). }
  destruct (getElementInfo h el) as [[info|]|err].
  - destruct (formatTooltip (config st) h info) as [tooltipText|err];
      [|discriminate].
    intros [= <-]. rewrite tooltip_showTooltip. intros [= <-] _. auto.
  - intros [= <-] Ht Hd. destruct (Hhide _ Ht Hd).
  - discriminate.
Qed.

(** X21.  Releasing the modifier disarms the helper: the tooltip is
    hidden, and a right click that follows leaves the default menu alone
    and the state as it is. *)
Theorem keyUp_disarms st :
  let st' := keyUpHandler "Control" st in
  ctrlPressed st' = false
  ∧ (∀ tip, tooltip st' = Some tip → display tip = "none")
  ∧ ∀ h clipboardApi e,
      contextMenuHandler h clipboardApi e st'
      = {| state_after := st'; defaultPrevented := false; completed := Normal tt |}.
Proof.
  intros st'. unfold st', keyUpHandler. simpl.
  assert (Hc : ctrlPressed (hideTooltip (with_ctrlPressed false st)) = false).
  { unfold hideTooltip. simpl. now destruct (tooltip st). }
  split; [exact Hc|]. split; [intros tip; apply hideTooltip_hidden|].
  intros h clipboardApi e. unfold contextMenuHandler. rewrite Hc.
  now rewrite orb_true_r.
Qed.

End SessionMore.

(* ================================================================== *)
(** * Initialisation and removal *)
(* ================================================================== *)

Section LifecycleFacts.
Import Js Extract Format Session Spec Lifecycle LifecycleSpec.

Lemma isInitialized_hideTooltip st : isInitialized (hideTooltip st) = isInitialized st.
Proof. unfold hideTooltip. now destruct (tooltip st). Qed.

Lemma isInitialized_setDebugEnabled b st :
  isInitialized (setDebugEnabled b st) = isInitialized st.
Proof.
  unfold setDebugEnabled. destruct b; [reflexivity|].
  now rewrite isInitialized_hideTooltip.
Qed.

Lemma tooltip_setDebugEnabled_None b st :
  tooltip st = None → tooltip (setDebugEnabled b st) = None.
Proof.
  intros Ht. unfold setDebugEnabled. destruct b; [exact Ht|].
  now apply hideTooltip_None.
Qed.

Lemma contextMenuHandler_frame h clipboardApi e st :
  isInitialized (state_after (contextMenuHandler h clipboardApi e st))
  = isInitialized st.
Proof.
  unfold contextMenuHandler.
  destruct (negb (isActive st) || negb (ctrlPressed st)); [reflexivity|].
  destruct (target e) as [el|]; [|reflexivity].
  destruct (getElementInfo h el) as [[info|]|err]; try reflexivity.
  destruct (formatCopyText (config st) h info); [|reflexivity].
  now destruct clipboardApi.
Qed.

Lemma dispatch_consistent ev p p' :
  consistent p → dispatch ev p = Normal p' → consistent p'.
Proof.
  intros (Hs & Hr & Hg & Hh & Ht). unfold dispatch.
  destruct (registered p) eqn:R.
  2:{ intros [= <-]. repeat split; auto; congruence. }
  assert (Hkeep : ∀ st, isInitialized st = isInitialized (session p) →
                        consistent (with_session st p)).
  { intros st Hi. unfold consistent. simpl. rewrite Hi, <- Hr, R.
    repeat split; auto; [congruence|intros; discriminate]. }
  destruct ev as [key|key|h e|h clipboardApi e].
  - intros [= <-]. apply Hkeep.
    unfold keyDownHandler. now destruct (String.eqb key "Control").
  - intros [= <-]. apply Hkeep.
    unfold keyUpHandler. destruct (String.eqb key "Control"); [|reflexivity].
    now rewrite isInitialized_hideTooltip.
  - destruct (mouseMoveHandler h e (session p)) as [st'|err] eqn:Hrun;
      [|discriminate].
    intros [= <-]. apply Hkeep.
    apply mouseMoveHandler_frame in Hrun. now rewrite Hrun.
  - cbv zeta.
    destruct (completed (contextMenuHandler h clipboardApi e (session p)));
      [|discriminate].
    intros [= <-]. apply Hkeep. apply contextMenuHandler_frame.
Qed.

Lemma init_consistent hostname userConfig p :
  consistent p → consistent (initDevDebugHelper hostname userConfig p).
Proof.
  intros (Hs & Hr & Hg & Hh & Ht). unfold initDevDebugHelper.
  destruct (isInitialized (session p)) eqn:I; [repeat split; auto; congruence|].
  simpl.
  match goal with |- context [if ?b then _ else _] => destruct b end.
  - unfold consistent. simpl. rewrite I. repeat split; auto.
  - unfold consistent. simpl. rewrite Hr, Hs. repeat split; auto.
Qed.

Lemma destroy_consistent p : consistent p → consistent (destroyDevDebugHelper p).
Proof.
  intros (Hs & Hr & Hg & Hh & Ht). unfold destroyDevDebugHelper.
  destruct (isInitialized (session p)) eqn:I; simpl; [|repeat split; auto; congruence].
  unfold consistent. simpl. rewrite Hh by congruence.
  repeat split; auto.
Qed.

Lemma session_consistent st p :
  isInitialized st = isInitialized (session p) →
  (tooltip (session p) = None → tooltip st = None) →
  consistent p → consistent (with_session st p).
Proof.
  intros Hi Htip (Hs & Hr & Hg & Hh & Ht). unfold consistent. simpl.
  rewrite Hi. repeat split; auto.
Qed.

Lemma step_consistent hostname c p :
  consistent p → ∃ p', step hostname c p = Normal p' ∧ consistent p'.
Proof.
  intros Hp. destruct c as [userConfig| |enabled| |ev]; simpl.
  - eexists. split; [reflexivity|]. now apply init_consistent.
  - eexists. split; [reflexivity|]. now apply destroy_consistent.
  - eexists. split; [reflexivity|]. apply session_consistent; auto.
    + apply isInitialized_setDebugEnabled.
    + apply tooltip_setDebugEnabled_None.
  - eexists. split; [reflexivity|]. apply session_consistent; auto.
    + apply isInitialized_setDebugEnabled.
    + apply tooltip_setDebugEnabled_None.
  - destruct (dispatch ev p) as [p'|err] eqn:Hd; eauto.
    exists p'. split; [reflexivity|]. eapply dispatch_consistent; eauto.
Qed.

Lemma run_consistent hostname cs p :
  consistent p → ∃ p', run hostname cs p = Normal p' ∧ consistent p'.
Proof.
  revert p. induction cs as [|c cs IH]; intros p Hp; simpl; [eauto|].
  destruct (step_consistent hostname c p Hp) as (p1 & -> & Hp1).
  now apply IH.
Qed.

Lemma loaded_consistent store : consistent (loaded store).
Proof. repeat split; auto. Qed.

(** X22.  Whatever calls and events follow the loading of the module, in
    whatever order, handlers that throw included, the page stays in step
    with the module: handlers are registered exactly while the helper is
    initialised and never twice, the three globals are on [window]
    exactly then, and a tooltip element exists only then. *)
Theorem run_keeps_page_consistent hostname store cs :
  ∃ p, run hostname cs (loaded store) = Normal p
       ∧ stale p = 0%nat
       ∧ registered p = isInitialized (session p)
       ∧ globals p = isInitialized (session p)
       ∧ (tooltip (session p) = None ∨ isInitialized (session p) = true).
Proof.
  destruct (run_consistent hostname cs (loaded store) (loaded_consistent store))
    as (p & Hrun & Hs & Hr & Hg & _ & Ht).
  exists p. repeat split; auto.
  destruct (isInitialized (session p)); [now right|left; now apply Ht].
Qed.

Lemma init_unfold hostname userConfig p :
  isInitialized (session p) = false →
  initDevDebugHelper hostname userConfig p =
  let st := with_config (mergeConfig userConfig) (session p) in
  if host_ok hostname userConfig
  then with_globals true
         (attachEventListeners
            (with_session
               (with_isActive (isDebugEnabled (with_isInitialized true st))
                  (with_isInitialized true st)) p))
  else with_session st p.
Proof.
  intros Hi. unfold initDevDebugHelper, host_ok. rewrite Hi. cbv zeta.
  change (devOnly (config (session
            (with_session (with_config (mergeConfig userConfig) (session p)) p))))
    with (devOnly (mergeConfig userConfig)).
  change (allowedHosts (config (session
            (with_session (with_config (mergeConfig userConfig) (session p)) p))))
    with (allowedHosts (mergeConfig userConfig)).
  now destruct (devOnly (mergeConfig userConfig)
                && negb (includes (allowedHosts (mergeConfig userConfig)) hostname)).
Qed.

(** X23.  On a host that the merged configuration does not allow,
    [initDevDebugHelper] leaves the helper uninitialised and registers
    nothing, but the merged configuration has replaced the one before, so
    that the persisted flag is from then on read under the new key. *)
Theorem init_refused hostname userConfig p :
  isInitialized (session p) = false →
  host_ok hostname userConfig = false →
  let p' := initDevDebugHelper hostname userConfig p in
  p' = with_session (with_config (mergeConfig userConfig) (session p)) p
  ∧ isInitialized (session p') = false
  ∧ registered p' = registered p
  ∧ isDebugEnabled (session p')
    = bool_decide (localStorage (session p) !! storageKey (mergeConfig userConfig)
                   = Some "true").
Proof.
  intros Hi Hok p'. unfold p'. rewrite (init_unfold _ _ _ Hi). cbv zeta.
  rewrite Hok. repeat split; auto.
Qed.

(** X24.  On a host that the merged configuration allows, initialising an
    uninitialised helper takes the active flag from the store, under the
    key of the merged configuration, starts with the modifier not held,
    registers the handlers and sets the globals; and a second call,
    whatever its configuration, then changes nothing. *)
Theorem init_accepted hostname userConfig userConfig' p :
  isInitialized (session p) = false →
  host_ok hostname userConfig = true →
  let p' := initDevDebugHelper hostname userConfig p in
  isInitialized (session p') = true
  ∧ config (session p') = mergeConfig userConfig
  ∧ isActive (session p')
    = bool_decide (localStorage (session p) !! storageKey (mergeConfig userConfig)
                   = Some "true")
  ∧ isActive (session p') = isDebugEnabled (session p')
  ∧ ctrlPressed (session p') = false
  ∧ registered p' = true ∧ globals p' = true
  ∧ localStorage (session p') = localStorage (session p)
  ∧ initDevDebugHelper hostname userConfig' p' = p'.
Proof.
  intros Hi Hok p'. unfold p'. rewrite (init_unfold _ _ _ Hi). cbv zeta.
  rewrite Hok. repeat split; auto.
Qed.

(** X25.  After [destroyDevDebugHelper], on any page reached from the
    loaded module, the helper is uninitialised, it is inactive if it was
    initialised (otherwise the call changes nothing), the tooltip element
    and the globals are gone, store and configuration are as they were,
    and no event has any effect. *)
Theorem destroy_silences hostname store cs p :
  run hostname cs (loaded store) = Normal p →
  let p' := destroyDevDebugHelper p in
  isInitialized (session p') = false
  ∧ isActive (session p') = isActive (session p) && negb (isInitialized (session p))
  ∧ tooltip (session p') = None
  ∧ globals p' = false
  ∧ localStorage (session p') = localStorage (session p)
  ∧ config (session p') = config (session p)
  ∧ ∀ ev, dispatch ev p' = Normal p'.
Proof.
  intros Hrun p'.
  destruct (run_consistent hostname cs (loaded store) (loaded_consistent store))
    as (q & Hq & Hs & Hr & Hg & Hh & Ht).
  rewrite Hrun in Hq. injection Hq as <-.
  unfold p', destroyDevDebugHelper.
  destruct (isInitialized (session p)) eqn:I; simpl.
  - rewrite andb_false_r. repeat split; auto.
    intros ev. unfold dispatch. simpl. now rewrite Hh by congruence.
  - rewrite I, andb_true_r. repeat split; auto; try congruence.
    intros ev. unfold dispatch. now rewrite Hr.
Qed.

(** X26.  The enabled flag survives removal: set it, destroy the helper,
    initialise again on an allowed host with a configuration of the same
    storage key, and the helper is active exactly if the flag was set. *)
Theorem enabled_survives_destroy hostname userConfig b p :
  host_ok hostname userConfig = true →
  storageKey (mergeConfig userConfig) = storageKey (config (session p)) →
  isActive
    (session
       (initDevDebugHelper hostname userConfig
          (destroyDevDebugHelper
             (with_session (setDebugEnabled b (session p)) p)))) = b.
Proof.
  intros Hok Hkey.
  set (p1 := with_session (setDebugEnabled b (session p)) p).
  set (p2 := destroyDevDebugHelper p1).
  assert (Hst : localStorage (session p2) = localStorage (session p1)
                ∧ isInitialized (session p2) = false).
  { unfold p2, destroyDevDebugHelper.
    destruct (isInitialized (session p1)) eqn:I; simpl; auto. }
  destruct Hst as [Hst Hi].
  rewrite (init_unfold _ _ _ Hi). cbv zeta. rewrite Hok.
  change (bool_decide (localStorage (session p2) !! storageKey (mergeConfig userConfig)
                       = Some "true") = b).
  rewrite Hst, Hkey. unfold p1.
  change (session (with_session (setDebugEnabled b (session p)) p))
    with (setDebugEnabled b (session p)).
  rewrite localStorage_setDebugEnabled, lookup_insert_eq. now destruct b.
Qed.

End LifecycleFacts.

(* ================================================================== *)
(** * The statements above at the sample pages *)
(* ================================================================== *)

Section Instances.
Import Js Extract Format Session Spec Samples Toast Lifecycle LifecycleSpec MoreSamples.

Lemma getElementInfo_without_fiber_witness :
  getElementInfo page button =
    Normal (Some {| className := "btn primary"; filePath := None;
                    lineNumber := None; componentName := VNull;
                    tagName := "button" |}).
Proof.
  apply (getElementInfo_without_fiber page button "btn primary");
    [reflexivity|reflexivity|discriminate].
Defined.

Lemma getElementInfo_fields_normalised_witness :
  Some "src/App.tsx" ≠ Some EmptyString
  ∧ Some "30" ≠ Some EmptyString
  ∧ (VString "Home" = VNull ∨ truthy (VString "Home") = true).
Proof.
  exact (getElementInfo_fields_normalised page div
           {| className := "x y"; filePath := Some "src/App.tsx";
              lineNumber := Some "30"; componentName := VString "Home";
              tagName := "div" |} eq_refl).
Defined.

Lemma lineNumber_needs_filePath_witness : is_Some (Some "src/App.tsx").
Proof.
  apply (lineNumber_needs_filePath page div
           {| r_filePath := Some "src/App.tsx"; r_lineNumber := Some "30";
              r_componentName := VString "Home" |});
    [reflexivity|now exists "30"].
Defined.

Lemma componentName_first_wins_witness :
  ∃ r, getReactSourceInfo page div = Normal r
       ∧ r_componentName r = VString "Home".
Proof.
  apply (componentName_first_wins page div 1%nat (VObject 3)
           {| r_filePath := Some "src/App.tsx"; r_lineNumber := Some "30";
              r_componentName := VString "Home" |});
    reflexivity.
Defined.

Lemma visit_overwrites_filePath_witness :
  r_filePath (visit page (VObject 1) earlier).1 = Some "src/pages/Home.tsx".
Proof.
  apply (visit_overwrites_filePath page (VObject 1) earlier
           "/home/u/proj/src/pages/Home.tsx");
    [reflexivity|discriminate].
Defined.

Lemma visit_ignores_string_type_witness :
  r_componentName (visit page (VObject 1) earlier).1 = VString "Old".
Proof. apply (visit_ignores_string_type page (VObject 1) earlier). reflexivity. Defined.

Lemma getReactSourceInfo_malformed_fileName_witness :
  getReactSourceInfo malformed div = Normal emptyInfo.
Proof.
  apply (getReactSourceInfo_malformed_fileName malformed div "__reactFiber$k3x9");
    [reflexivity|].
  right. exists 7. split; [reflexivity|discriminate].
Defined.

Lemma formatters_need_path_for_line_witness :
  DEFAULT_formatCopyText page
    {| className := "x"; filePath := None; lineNumber := Some "10";
       componentName := VNull; tagName := "div" |}
  = DEFAULT_formatCopyText page
      {| className := "x"; filePath := None; lineNumber := None;
         componentName := VNull; tagName := "div" |}.
Proof.
  exact (proj1 (formatters_need_path_for_line page "x" None VNull "div"
                  (Some "10") None eq_refl)).
Defined.

Lemma displayText_short_witness :
  displayText ("// src/a.tsx:1" +:+ newline +:+ "className=x")
  = "// src/a.tsx:1" +:+ newline +:+ "className=x".
Proof.
  apply displayText_short; vm_compute; lia.
Defined.

Lemma preview_long_witness :
  ∃ head rest,
    length (split newline_char head) = 3%nat
    ∧ five_lines = head +:+ newline +:+ rest
    ∧ preview five_lines = head +:+ newline +:+ "...".
Proof. apply preview_long. vm_compute. lia. Defined.

Lemma setDebugEnabled_tooltip_witness :
  display {| textContent := "hello"; display := "none";
             left := "10px"; top := "20px" |} = "none".
Proof. exact (proj2 (setDebugEnabled_tooltip showing) _ eq_refl). Defined.

Lemma mouseMoveHandler_shows_only_when_armed_witness :
  isActive (Samples.session ∅) = true ∧ ctrlPressed (Samples.session ∅) = true
  ∧ "115px" = pretty (clientX (pointer div) + 15) +:+ "px"
  ∧ "55px" = pretty (clientY (pointer div) + 15) +:+ "px".
Proof.
  eapply (mouseMoveHandler_shows_only_when_armed page (pointer div)
            (Samples.session ∅) _
            {| textContent := _; display := "block"; left := "115px"; top := "55px" |});
    [vm_compute; reflexivity|reflexivity|reflexivity].
Defined.

Lemma keyUp_disarms_witness :
  contextMenuHandler page true (pointer div) (keyUpHandler "Control" showing)
  = {| state_after := keyUpHandler "Control" showing;
       defaultPrevented := false; completed := Normal tt |}.
Proof. exact (proj2 (proj2 (keyUp_disarms showing)) page true (pointer div)). Defined.

Lemma mouseMoveHandler_only_tooltip_witness :
  isActive (Samples.session ∅) = true ∧ ctrlPressed (Samples.session ∅) = true
  ∧ ∃ el info,
      target (pointer div) = Some el
      ∧ getElementInfo nameless el = Normal (Some info)
      ∧ formatTooltip (config (Samples.session ∅)) nameless info
        = Throw "TypeError: Cannot convert object to primitive value".
Proof.
  apply (proj2 (mouseMoveHandler_only_tooltip nameless (pointer div)
                  (Samples.session ∅))).
  reflexivity.
Defined.

Lemma init_refused_witness :
  isInitialized (session (initDevDebugHelper "example.com" custom (loaded ∅))) = false.
Proof.
  exact (proj1 (proj2 (init_refused "example.com" custom (loaded ∅) eq_refl eq_refl))).
Defined.

Lemma init_accepted_witness :
  isActive (session (initDevDebugHelper "localhost" custom
                       (loaded {[ "dbg" := "true" ]})))
  = bool_decide (({[ "dbg" := "true" ]} : gmap string string)
                   !! storageKey (mergeConfig custom) = Some "true").
Proof.
  exact (proj1 (proj2 (proj2
           (init_accepted "localhost" custom noConfig
              (loaded {[ "dbg" := "true" ]}) eq_refl eq_refl)))).
Defined.

Lemma destroy_silences_witness :
  tooltip (session (destroyDevDebugHelper
                      (with_session (setDebugEnabled true
                         (session (initDevDebugHelper "localhost" noConfig (loaded ∅))))
                         (initDevDebugHelper "localhost" noConfig (loaded ∅))))) = None.
Proof.
  exact (proj1 (proj2 (proj2
           (destroy_silences "localhost" ∅ [Init noConfig; SetEnabled true] _ eq_refl)))).
Defined.

Lemma enabled_survives_destroy_witness :
  isActive
    (session
       (initDevDebugHelper "localhost" noConfig
          (destroyDevDebugHelper
             (with_session (setDebugEnabled true (session (loaded ∅))) (loaded ∅)))))
  = true.
Proof.
  exact (enabled_survives_destroy "localhost" noConfig true (loaded ∅) eq_refl eq_refl).
Defined.

End Instances.
